(** * mygpoclient.api: the advanced my.gpodder.org API client

    A shallow embedding of [mygpoclient/api.py]: the value objects
    [PodcastDevice] and [EpisodeAction] with their validation and dictionary
    (de)serialisation, and the request/response methods of [MygPodderClient].

    Python objects that flow through this module are decoded JSON values or
    [None]; exceptions are modelled by an error monad; the transport, the
    locator and the [util] module are collaborators given as interfaces. *)

From Stdlib Require Import ZArith String Ascii.
From Stdlib Require Import Floats.SpecFloat.
From stdpp Require Import gmap strings list fin_maps.

Set Warnings "-register-all".
Local Open Scope string_scope.
Local Open Scope Z_scope.

(** ** Python values *)

(** The values a JSON decoder produces, plus [None]. Integers are unbounded,
    floats are IEEE-754 values in the specification format of the Standard
    Library, dictionaries are keyed by strings. *)
Inductive pyval : Type :=
| PNone
| PBool (b : bool)
| PInt (n : Z)
| PFloat (f : spec_float)
| PStr (s : string)
| PList (l : list pyval)
| PDict (d : gmap string pyval).

(** ** Exceptions *)

(** The exception classes that occur: Python's builtin ones, the module's own
    [InvalidResponse] (api.py line 24), and whatever a collaborator raises.
    Messages of the module's own [raise] statements are kept verbatim; the
    interpreter's messages for builtin failures are not modelled, since no
    handler of the module looks at a message. *)
Inductive exn : Type :=
| ValueError (msg : string)
| KeyError (key : string)
| TypeError
| AttributeError
| OverflowError
| InvalidResponse (msg : string)
| OtherError (name : string).

Inductive result (A : Type) : Type :=
| Ok (a : A)
| Raise (e : exn).
Arguments Ok {A} a.
Arguments Raise {A} e.

#[global] Instance result_ret : MRet result := fun A a => Ok a.
#[global] Instance result_bind : MBind result := fun A B f m =>
  match m with
  | Ok a => f a
  | Raise e => Raise e
  end.

(** [try: body except cls: handler], for a handler that does not use the
    exception value. *)
Definition try_except {A} (body : result A) (cls : exn → bool)
    (handler : result A) : result A :=
  match body with
  | Ok a => Ok a
  | Raise e => if cls e then handler else Raise e
  end.

Definition isValueError (e : exn) : bool :=
  match e with ValueError _ => true | _ => false end.
Definition isKeyError (e : exn) : bool :=
  match e with KeyError _ => true | _ => false end.
Definition isInvalidResponse (e : exn) : bool :=
  match e with InvalidResponse _ => true | _ => false end.
(** A bare [except:] catches everything. *)
Definition anyException (e : exn) : bool := true.

(** Sequential evaluation of a list comprehension [[f(x) for x in l]]: the
    first exception ends it. *)
Fixpoint comprehension {A B} (f : A → result B) (l : list A) : result (list B) :=
  match l with
  | [] => Ok []
  | x :: l' => y ← f x; ys ← comprehension f l'; Ok (y :: ys)
  end.

(** ** Builtins *)

(** [v is None] *)
Definition is_None (v : pyval) : bool :=
  match v with PNone => true | _ => false end.

(** [isinstance(v, str)] *)
Definition isinstance_str (v : pyval) : bool :=
  match v with PStr _ => true | _ => false end.

(** [v == 'literal']: only a string equals a string. *)
Definition py_eq_str (v : pyval) (s : string) : bool :=
  match v with PStr s' => String.eqb s' s | _ => false end.

(** [v in (s1, ..., sn)] for a tuple of string literals. *)
Definition py_in_tuple (v : pyval) (t : list string) : bool :=
  existsb (py_eq_str v) t.

Fixpoint is_substring (sub s : string) : bool :=
  String.prefix sub s ||
  match s with
  | EmptyString => false
  | String _ s' => is_substring sub s'
  end.

(** ['key' in c]: key membership for a dictionary, element membership for a
    list, substring test for a string; any other operand is not iterable. *)
Definition py_in (key : string) (c : pyval) : result bool :=
  match c with
  | PDict d => Ok (bool_decide (is_Some (d !! key)))
  | PList l => Ok (existsb (fun v => py_eq_str v key) l)
  | PStr s => Ok (is_substring key s)
  | _ => Raise TypeError
  end.

(** [c['key']]: only a dictionary can be subscripted by a string. *)
Definition py_getitem (c : pyval) (key : string) : result pyval :=
  match c with
  | PDict d =>
      match d !! key with
      | Some v => Ok v
      | None => Raise (KeyError key)
      end
  | _ => Raise TypeError
  end.

(** [c.get('key')]: only a dictionary has the method. *)
Definition py_get (c : pyval) (key : string) : result pyval :=
  match c with
  | PDict d => Ok (default PNone (d !! key))
  | _ => Raise AttributeError
  end.

(** [for x in c]: the elements of a list, the characters of a string, the
    keys of a dictionary (all of them strings; the order in which a
    dictionary yields them plays no role in this module). *)
Definition py_iter (c : pyval) : result (list pyval) :=
  match c with
  | PList l => Ok l
  | PStr s => Ok ((fun a => PStr (String a EmptyString)) <$> list_ascii_of_string s)
  | PDict d => Ok (PStr <$> (map_to_list d).*1)
  | _ => Raise TypeError
  end.

(** [all(isinstance(x, str) for x in c)] *)
Definition all_str (c : pyval) : result bool :=
  xs ← py_iter c; Ok (forallb isinstance_str xs).

(** ['literal' + v]: concatenation needs a string on the right. *)
Definition py_concat (s : string) (v : pyval) : result string :=
  match v with
  | PStr s' => Ok (s +:+ s')
  | _ => Raise TypeError
  end.

(** *** [int()] *)

Definition is_space (a : ascii) : bool :=
  let n := nat_of_ascii a in
  (Nat.eqb n 32 || Nat.eqb n 9 || Nat.eqb n 10 || Nat.eqb n 11
   || Nat.eqb n 12 || Nat.eqb n 13)%bool.

Fixpoint lstrip (l : list ascii) : list ascii :=
  match l with
  | a :: l' => if is_space a then lstrip l' else l
  | [] => []
  end.

Definition strip (l : list ascii) : list ascii :=
  rev (lstrip (rev (lstrip l))).

Definition digit_of (a : ascii) : option Z :=
  let n := Z.of_nat (nat_of_ascii a) in
  if (48 <=? n) && (n <=? 57) then Some (n - 48) else None.

(** Decimal digits, with single underscores allowed between digits. *)
Fixpoint parse_digits (acc : Z) (after_digit : bool) (l : list ascii) : option Z :=
  match l with
  | [] => if after_digit then Some acc else None
  | a :: l' =>
      if Ascii.eqb a "_"%char then
        if after_digit then parse_digits acc false l' else None
      else
        match digit_of a with
        | Some d => parse_digits (10 * acc + d) true l'
        | None => None
        end
  end.

(** [s.isascii()]: every character of [s] is below 128. *)
Definition isascii (s : string) : bool :=
  forallb (fun a => Nat.ltb (nat_of_ascii a) 128) (list_ascii_of_string s).

(** [int(s)] in base 10: surrounding whitespace, an optional sign, digits.
    This is the reading of the ASCII digits and the ASCII whitespace. A
    number it finds is the number [int()] returns; that it finds none means
    [int()] raises [ValueError] when [s] is a string of ASCII characters
    ([isascii]) only, since [int()] reads the decimal digits and the spaces
    of other scripts as well. Statements about a rejected string are
    therefore made for ASCII strings. *)
Definition int_of_str (s : string) : option Z :=
  match strip (list_ascii_of_string s) with
  | a :: l =>
      if Ascii.eqb a "+"%char then parse_digits 0 false l
      else if Ascii.eqb a "-"%char then Z.opp <$> parse_digits 0 false l
      else parse_digits 0 false (a :: l)
  | [] => None
  end.

(** [int(f)] truncates towards zero; infinities and NaN have no integer. *)
Definition int_of_float (f : spec_float) : result Z :=
  match f with
  | S754_zero _ => Ok 0
  | S754_infinity _ => Raise OverflowError
  | S754_nan => Raise (ValueError "cannot convert float NaN to integer")
  | S754_finite s m e =>
      let a := if 0 <=? e then Z.pos m * 2 ^ e else Z.pos m / 2 ^ (- e) in
      Ok (if s then - a else a)
  end.

(** [int(v)] *)
Definition py_int (v : pyval) : result Z :=
  match v with
  | PBool b => Ok (if b then 1 else 0)
  | PInt n => Ok n
  | PFloat f => int_of_float f
  | PStr s =>
      match int_of_str s with
      | Some n => Ok n
      | None => Raise (ValueError "invalid literal for int() with base 10")
      end
  | PNone | PList _ | PDict _ => Raise TypeError
  end.

(** ** The [util] collaborator *)

(** [mygpoclient.util] supplies the two parsers that [EpisodeAction] uses to
    validate its optional fields. [iso8601_to_datetime] returns a datetime or
    [None]; [position_to_seconds] returns a number of seconds or raises. *)
Class Util : Type := {
  datetime : Type;
  iso8601_to_datetime : pyval → result (option datetime);
  position_to_seconds : pyval → result Z;
}.

(** ** Value objects *)

Module SubscriptionChanges.
Record t : Type := mk { add : pyval; remove : pyval; since : Z }.
End SubscriptionChanges.

Module PodcastDevice.
Record t : Type := mk {
  device_id : pyval;
  caption : pyval;
  type : pyval;
  subscriptions : Z;
}.

Definition VALID_TYPES : list string :=
  ["desktop"; "laptop"; "mobile"; "server"; "other"].

(** [PodcastDevice.__init__] *)
Definition __init__ (device_id caption type subscriptions : pyval) : result t :=
  if negb (py_in_tuple type VALID_TYPES) then
    Raise (ValueError "Invalid device type (see VALID_TYPES)")
  else
    _ ← try_except (py_int subscriptions) anyException
          (Raise (ValueError "Subscription must be a numeric value"));
    n ← py_int subscriptions;
    Ok (mk device_id caption type n).

(** [PodcastDevice.from_dictionary] *)
Definition from_dictionary (d : pyval) : result t :=
  device_id ← py_getitem d "id";
  caption ← py_getitem d "caption";
  type ← py_getitem d "type";
  subscriptions ← py_getitem d "subscriptions";
  __init__ device_id caption type subscriptions.
End PodcastDevice.

Module EpisodeAction.
Record t : Type := mk {
  podcast : pyval;
  episode : pyval;
  action : pyval;
  device : pyval;
  timestamp : pyval;
  position : pyval;
}.

Definition VALID_ACTIONS : list string :=
  ["download"; "play"; "delete"; "new"].

(** The message of line 107, which quotes the word play. *)
Definition POSITION_ONLY_FOR_PLAY : string :=
  let q := String (ascii_of_nat 34) EmptyString in
  "Position can only be set for the " +:+ q +:+ "play" +:+ q +:+ " action".

(** The attribute names that [to_dictionary] loops over. *)
Inductive attribute : Type :=
| a_podcast | a_episode | a_action | a_device | a_timestamp | a_position.

Definition name (a : attribute) : string :=
  match a with
  | a_podcast => "podcast"
  | a_episode => "episode"
  | a_action => "action"
  | a_device => "device"
  | a_timestamp => "timestamp"
  | a_position => "position"
  end.

Definition getattr (self : t) (a : attribute) : pyval :=
  match a with
  | a_podcast => podcast self
  | a_episode => episode self
  | a_action => action self
  | a_device => device self
  | a_timestamp => timestamp self
  | a_position => position self
  end.

(** [EpisodeAction.to_dictionary] *)
Definition to_dictionary (self : t) : gmap string pyval :=
  let d : gmap string pyval := ∅ in
  let d :=
    foldl (fun d mandatory =>
             let value := getattr self mandatory in
             <[name mandatory := value]> d)
          d [a_podcast; a_episode; a_action] in
  let d :=
    foldl (fun d optional =>
             let value := getattr self optional in
             if negb (is_None value) then <[name optional := value]> d else d)
          d [a_device; a_timestamp; a_position] in
  d.

Section WithUtil.
Context {U : Util}.

(** Lines 109-112: the format of the timestamp value. *)
Definition check_timestamp (timestamp : pyval) : result unit :=
  if negb (is_None timestamp) then
    parsed ← iso8601_to_datetime timestamp;
    match parsed with
    | None => Raise (ValueError "Timestamp has to be in ISO 8601 format")
    | Some _ => Ok tt
    end
  else Ok tt.

(** Lines 114-119: the format of the position value. *)
Definition check_position (position : pyval) : result unit :=
  if negb (is_None position) then
    try_except (_ ← position_to_seconds position; Ok tt) isValueError
      (Raise (ValueError "Position has to be in HH:MM:SS format"))
  else Ok tt.

(** [EpisodeAction.__init__] *)
Definition __init__ (podcast episode action device timestamp position : pyval)
    : result t :=
  if negb (py_in_tuple action VALID_ACTIONS) then
    Raise (ValueError "Invalid action type (see VALID_TYPES)")
  else if negb (py_eq_str action "play") && negb (is_None position) then
    Raise (ValueError POSITION_ONLY_FOR_PLAY)
  else
    _ ← check_timestamp timestamp;
    _ ← check_position position;
    Ok (mk podcast episode action device timestamp position).

(** [EpisodeAction.from_dictionary] *)
Definition from_dictionary (d : pyval) : result t :=
  podcast ← py_getitem d "podcast";
  episode ← py_getitem d "episode";
  action ← py_getitem d "action";
  device ← py_get d "device";
  timestamp ← py_get d "timestamp";
  position ← py_get d "position";
  __init__ podcast episode action device timestamp position.
End WithUtil.
End EpisodeAction.

Module EpisodeActionChanges.
Record t : Type := mk { actions : list EpisodeAction.t; since : Z }.
End EpisodeActionChanges.

(** ** The locator and transport collaborators *)

(** The locator builds the request URIs (it may reject its arguments). *)
Class Locator : Type := {
  add_remove_subscriptions_uri : pyval → result string;
  subscription_updates_uri : pyval → pyval → result string;
  upload_episode_actions_uri : result string;
  download_episode_actions_uri : pyval → pyval → pyval → result string;
  device_settings_uri : pyval → result string;
  device_list_uri : result string;
}.

(** A call on [self._client]. *)
Inductive request : Type :=
| GET (uri : string)
| POST (uri : string) (data : pyval)
| PUT (uri : string) (data : pyval).

(** A method of the client: it finishes with a value or an exception, or it
    calls the transport and goes on with the decoded reply. *)
Inductive client (A : Type) : Type :=
| Done (r : result A)
| Call (q : request) (k : pyval → client A).
Arguments Done {A} r.
Arguments Call {A} q k.

#[global] Instance client_ret : MRet client := fun A a => Done (Ok a).
#[global] Instance client_bind : MBind client := fun A B f =>
  fix go (m : client A) : client B :=
    match m with
    | Done (Ok a) => f a
    | Done (Raise e) => Done (Raise e)
    | Call q k => Call q (fun reply => go (k reply))
    end.

Definition perform (q : request) : client pyval :=
  Call q (fun reply => Done (Ok reply)).

Definition raise {A} (e : exn) : client A := Done (Raise e).

(** Running a method against a transport; an exception of the transport
    ends the method. *)
Fixpoint run {A} (transport : request → result pyval) (m : client A) : result A :=
  match m with
  | Done r => r
  | Call q k =>
      match transport q with
      | Ok reply => run transport (k reply)
      | Raise e => Raise e
      end
  end.

(** The requests a method sends to a transport, in order. *)
Fixpoint requests {A} (transport : request → result pyval) (m : client A)
    : list request :=
  match m with
  | Done _ => []
  | Call q k =>
      q :: match transport q with
           | Ok reply => requests transport (k reply)
           | Raise _ => []
           end
  end.

(** ** MygPodderClient *)

Module MygPodderClient.
Section WithCollaborators.
Context {U : Util} {L : Locator}.

(** Lines 171-182 and 232-243: the reply to an upload carries a
    timestamp. *)
Definition since_of_response (response : pyval) : result Z :=
  if is_None response then
    Raise (InvalidResponse "Got empty response")
  else
    present ← py_in "timestamp" response;
    if negb present then
      Raise (InvalidResponse "Response does not contain timestamp")
    else
      try_except (ts ← py_getitem response "timestamp"; py_int ts)
        isValueError
        (Raise (InvalidResponse "Invalid value for timestamp in response")).

Definition update_subscriptions (device_id add_urls remove_urls : pyval)
    : client Z :=
  uri ← Done (add_remove_subscriptions_uri device_id);
  ok ← Done (all_str add_urls);
  if negb ok then raise (ValueError "add_urls must be a list of strings")
  else
    ok ← Done (all_str remove_urls);
    if negb ok then raise (ValueError "remove_urls must be a list of strings")
    else
      let data : gmap string pyval :=
        <["remove" := remove_urls]> (<["add" := add_urls]> ∅) in
      response ← perform (POST uri (PDict data));
      Done (since_of_response response).

(** Lines 198-221: what [pull_subscriptions] does with the reply. *)
Definition subscription_changes (data : pyval)
    : result SubscriptionChanges.t :=
  if is_None data then
    Raise (InvalidResponse "Got empty response")
  else
    present ← py_in "add" data;
    if negb present then
      Raise (InvalidResponse "List of added podcasts not in response")
    else
      present ← py_in "remove" data;
      if negb present then
        Raise (InvalidResponse "List of removed podcasts not in response")
      else
        present ← py_in "timestamp" data;
        if negb present then
          Raise (InvalidResponse "Timestamp missing from response")
        else
          ok ← (xs ← py_getitem data "add"; all_str xs);
          if negb ok then
            Raise (InvalidResponse "Invalid value in list of added podcasts")
          else
            ok ← (xs ← py_getitem data "remove"; all_str xs);
            if negb ok then
              Raise (InvalidResponse
                       "Invalid value in list of removed podcasts")
            else
              since ← try_except
                        (ts ← py_getitem data "timestamp"; py_int ts)
                        isValueError
                        (Raise (InvalidResponse
                                  "Timestamp has invalid format in response"));
              add ← py_getitem data "add";
              remove ← py_getitem data "remove";
              Ok (SubscriptionChanges.mk add remove since).

Definition pull_subscriptions (device_id since : pyval)
    : client SubscriptionChanges.t :=
  uri ← Done (subscription_updates_uri device_id since);
  data ← perform (GET uri);
  Done (subscription_changes data).

Definition upload_episode_actions (actions : list EpisodeAction.t)
    : client Z :=
  uri ← Done upload_episode_actions_uri;
  let actions := (fun action => PDict (EpisodeAction.to_dictionary action))
                   <$> actions in
  response ← perform (POST uri (PList actions));
  Done (since_of_response response).

(** Lines 257-278: what [download_episode_actions] does with the reply. *)
Definition episode_action_changes (data : pyval)
    : result EpisodeActionChanges.t :=
  if is_None data then
    Raise (InvalidResponse "Got empty response")
  else
    present ← py_in "actions" data;
    if negb present then
      Raise (InvalidResponse "Response does not contain actions")
    else
      present ← py_in "timestamp" data;
      if negb present then
        Raise (InvalidResponse "Response does not contain timestamp")
      else
        since ← try_except
                  (ts ← py_getitem data "timestamp"; py_int ts)
                  isValueError
                  (ts ← py_getitem data "timestamp";
                   msg ← py_concat "Invalid value for timestamp: " ts;
                   Raise (InvalidResponse msg));
        dicts ← py_getitem data "actions";
        actions ← try_except
                    (ds ← py_iter dicts;
                     comprehension EpisodeAction.from_dictionary ds)
                    isKeyError
                    (Raise (InvalidResponse
                              "Missing keys in action list response"));
        Ok (EpisodeActionChanges.mk actions since).

Definition download_episode_actions (since podcast device_id : pyval)
    : client EpisodeActionChanges.t :=
  uri ← Done (download_episode_actions_uri since podcast device_id);
  data ← perform (GET uri);
  Done (episode_action_changes data).

(** Lines 294-298: the body of the PUT. *)
Definition device_settings (caption type : pyval) : gmap string pyval :=
  let data : gmap string pyval := ∅ in
  let data :=
    if negb (is_None caption) then <["caption" := caption]> data else data in
  let data :=
    if negb (is_None type) then <["type" := type]> data else data in
  data.

Definition update_device_settings (device_id caption type : pyval)
    : client bool :=
  uri ← Done (device_settings_uri device_id);
  let data := device_settings caption type in
  reply ← perform (PUT uri (PDict data));
  Done (Ok (is_None reply)).

Definition get_devices : client (list PodcastDevice.t) :=
  uri ← Done device_list_uri;
  dicts ← perform (GET uri);
  if is_None dicts then raise (InvalidResponse "No response received")
  else
    Done (try_except
            (ds ← py_iter dicts;
             comprehension PodcastDevice.from_dictionary ds)
            isKeyError
            (Raise (InvalidResponse "Missing keys in device list response"))).
End WithCollaborators.
End MygPodderClient.

(** ** Stand-in collaborators

    Concrete collaborators against which the methods can be run: a [util]
    that reads positions as [HH:MM:SS] and takes any 19- or 20-character
    string for a timestamp, a locator that builds paths under [/api/1], and
    a transport that answers every request with one fixed reply. *)

Module StandIn.
Fixpoint split_colon (cur : string) (l : list ascii) : list string :=
  match l with
  | [] => [cur]
  | a :: l' =>
      if Ascii.eqb a ":"%char then cur :: split_colon EmptyString l'
      else split_colon (cur +:+ String a EmptyString) l'
  end.

Definition position_seconds (v : pyval) : result Z :=
  match v with
  | PStr s =>
      match int_of_str <$> split_colon EmptyString (list_ascii_of_string s) with
      | [Some hours; Some minutes; Some seconds] =>
          Ok (seconds + 60 * (minutes + 60 * hours))
      | _ => Raise (ValueError "Invalid time format.")
      end
  | _ => Raise (ValueError "Invalid time format.")
  end.

Definition timestamp_datetime (v : pyval) : result (option string) :=
  match v with
  | PStr s =>
      let n := String.length s in
      Ok (if (Nat.eqb n 19 || Nat.eqb n 20)%bool then Some s else None)
  | _ => Raise TypeError
  end.

#[export] Instance util : Util := {|
  datetime := string;
  iso8601_to_datetime := timestamp_datetime;
  position_to_seconds := position_seconds;
|}.

Definition path (prefix : string) (v : pyval) : result string :=
  match v with
  | PStr s => Ok (prefix +:+ s +:+ ".json")
  | _ => Raise TypeError
  end.

#[export] Instance locator : Locator := {|
  add_remove_subscriptions_uri := path "/api/1/subscriptions/";
  subscription_updates_uri device_id _ := path "/api/1/subscriptions/" device_id;
  upload_episode_actions_uri := Ok "/api/1/episodes.json";
  download_episode_actions_uri _ _ _ := Ok "/api/1/episodes.json";
  device_settings_uri := path "/api/1/devices/";
  device_list_uri := Ok "/api/1/devices.json";
|}.

Definition reply_with (reply : pyval) : request → result pyval :=
  fun _ => Ok reply.

(** A transport whose every request fails, and a locator that accepts no
    arguments. *)
Definition unreachable : request → result pyval :=
  fun _ => Raise (OtherError "URLError").

Definition rejecting_locator : Locator := {|
  add_remove_subscriptions_uri _ := Raise (OtherError "BadDevice");
  subscription_updates_uri _ _ := Raise (OtherError "BadDevice");
  upload_episode_actions_uri := Raise (OtherError "BadDevice");
  download_episode_actions_uri _ _ _ := Raise (OtherError "BadDevice");
  device_settings_uri _ := Raise (OtherError "BadDevice");
  device_list_uri := Raise (OtherError "BadDevice");
|}.
End StandIn.

(** * Properties *)

(** Membership in a list that is written out. *)
Ltac in_literal :=
  repeat first [apply list_elem_of_here | apply list_elem_of_further].

(** An exception is not a returned value. *)
Ltac raised :=
  let E := fresh in intros E; cbn [try_except mbind result_bind] in E; discriminate E.

(** ** The builtins *)

Example int_of_str_42 : int_of_str "42" = Some 42.
Proof. reflexivity. Qed.

Example int_of_str_signed : int_of_str " -1_000 " = Some (-1000).
Proof. reflexivity. Qed.

Example int_of_str_bad : int_of_str "4 2" = None.
Proof. reflexivity. Qed.

Example int_of_float_trunc : int_of_float (S754_finite true 7 (-1)) = Ok (-3).
Proof. reflexivity. Qed.

Example position_seconds_example :
  StandIn.position_seconds (PStr "01:02:03") = Ok 3723.
Proof. reflexivity. Qed.

Lemma is_None_true (v : pyval) : is_None v = true ↔ v = PNone.
Proof. destruct v; simpl; split; congruence. Qed.

Lemma is_None_false (v : pyval) : is_None v = false ↔ v ≠ PNone.
Proof. destruct v; simpl; split; congruence. Qed.

Lemma py_eq_str_true (v : pyval) (s : string) : py_eq_str v s = true ↔ v = PStr s.
Proof.
  destruct v as [| | | |s'| |]; simpl; try (split; congruence).
  rewrite String.eqb_eq. split; congruence.
Qed.

Lemma py_eq_str_false (v : pyval) (s : string) : py_eq_str v s = false ↔ v ≠ PStr s.
Proof.
  rewrite <- py_eq_str_true. destruct (py_eq_str v s); split; congruence.
Qed.

Lemma py_in_tuple_true (v : pyval) (t : list string) :
  py_in_tuple v t = true ↔ v ∈ PStr <$> t.
Proof.
  unfold py_in_tuple. induction t as [|s t IH]; simpl.
  - split; [discriminate | intros Hin; inversion Hin].
  - rewrite orb_true_iff, IH, py_eq_str_true, elem_of_cons. reflexivity.
Qed.

Lemma py_in_tuple_false (v : pyval) (t : list string) :
  py_in_tuple v t = false ↔ v ∉ PStr <$> t.
Proof.
  rewrite <- py_in_tuple_true. destruct (py_in_tuple v t); split; congruence.
Qed.

(** A comprehension that ends has one result per element. *)
Lemma comprehension_length {A B} (f : A → result B) (l : list A) (ys : list B) :
  comprehension f l = Ok ys → length ys = length l.
Proof.
  revert ys. induction l as [|x l IH]; intros ys; simpl.
  - intros [= <-]. reflexivity.
  - destruct (f x) as [y|]; simpl; [|discriminate].
    destruct (comprehension f l) as [ys'|]; simpl; [|discriminate].
    intros [= <-]. simpl. f_equal. apply IH. reflexivity.
Qed.

(** ** EpisodeAction *)

Section EpisodeActionProperties.
Import EpisodeAction.
Context {U : Util}.

(** What [to_dictionary] holds under a mandatory key. *)
Lemma to_dictionary_mandatory (e : t) (a : attribute) :
  a ∈ [a_podcast; a_episode; a_action] →
  to_dictionary e !! name a = Some (getattr e a).
Proof.
  intros Ha. unfold to_dictionary. simpl.
  destruct (is_None (device e)), (is_None (timestamp e)),
    (is_None (position e)); simpl;
    repeat (apply elem_of_cons in Ha as [-> | Ha]; [by simplify_map_eq |]);
    inversion Ha.
Qed.

(** What [to_dictionary] holds under an optional key. *)
Lemma to_dictionary_optional (e : t) (a : attribute) :
  a ∈ [a_device; a_timestamp; a_position] →
  to_dictionary e !! name a =
    if is_None (getattr e a) then None else Some (getattr e a).
Proof.
  intros Ha. unfold to_dictionary. simpl.
  repeat (apply elem_of_cons in Ha as [-> | Ha];
          [simpl;
           destruct (is_None (device e)), (is_None (timestamp e)),
             (is_None (position e)); simpl; by simplify_map_eq |]).
  inversion Ha.
Qed.

(** Every key of [to_dictionary] is the name of an attribute. *)
Lemma to_dictionary_dom (e : t) (k : string) :
  is_Some (to_dictionary e !! k) → ∃ a, k = name a.
Proof.
  unfold to_dictionary. simpl.
  destruct (is_None (device e)), (is_None (timestamp e)),
    (is_None (position e)); simpl; intros Hk;
    repeat (rewrite lookup_insert in Hk; case_decide;
            [subst k;
             first [by exists a_podcast | by exists a_episode
                   | by exists a_action | by exists a_device
                   | by exists a_timestamp | by exists a_position] |]);
    rewrite lookup_empty in Hk; by destruct Hk.
Qed.

Lemma py_get_to_dictionary (e : t) (a : attribute) :
  a ∈ [a_device; a_timestamp; a_position] →
  py_get (PDict (to_dictionary e)) (name a) = Ok (getattr e a).
Proof.
  intros Ha. simpl. rewrite (to_dictionary_optional e a Ha).
  destruct (getattr e a); reflexivity.
Qed.

(** [__init__] stores its arguments verbatim. *)
Lemma init_Ok_fields p ep a dv ts pos (e : t) :
  __init__ p ep a dv ts pos = Ok e → e = mk p ep a dv ts pos.
Proof.
  unfold __init__.
  destruct (negb (py_in_tuple a VALID_ACTIONS)); [discriminate |].
  destruct (negb (py_eq_str a "play") && negb (is_None pos)); [discriminate |].
  destruct (check_timestamp ts); simpl; [| discriminate].
  destruct (check_position pos); simpl; [| discriminate].
  congruence.
Qed.
End EpisodeActionProperties.

(** C5. For every [EpisodeAction] (so for every validly constructed one),
    [to_dictionary()] holds the keys podcast, episode and action, with the
    values of those fields; it holds each of the keys device, timestamp and
    position exactly when that field is not [None], then with the field's
    value; and it holds no other key. *)
Theorem to_dictionary_keys (e : EpisodeAction.t) :
  let d := EpisodeAction.to_dictionary e in
  d !! "podcast" = Some (EpisodeAction.podcast e)
  ∧ d !! "episode" = Some (EpisodeAction.episode e)
  ∧ d !! "action" = Some (EpisodeAction.action e)
  ∧ (is_Some (d !! "device") ↔ EpisodeAction.device e ≠ PNone)
  ∧ (is_Some (d !! "timestamp") ↔ EpisodeAction.timestamp e ≠ PNone)
  ∧ (is_Some (d !! "position") ↔ EpisodeAction.position e ≠ PNone)
  ∧ (∀ v, d !! "device" = Some v → v = EpisodeAction.device e)
  ∧ (∀ v, d !! "timestamp" = Some v → v = EpisodeAction.timestamp e)
  ∧ (∀ v, d !! "position" = Some v → v = EpisodeAction.position e)
  ∧ (∀ k, is_Some (d !! k) →
       k ∈ ["podcast"; "episode"; "action"; "device"; "timestamp"; "position"]).
Proof.
  intros d. subst d.
  pose proof (to_dictionary_mandatory e EpisodeAction.a_podcast) as Hp.
  pose proof (to_dictionary_mandatory e EpisodeAction.a_episode) as He.
  pose proof (to_dictionary_mandatory e EpisodeAction.a_action) as Ha.
  pose proof (to_dictionary_optional e EpisodeAction.a_device) as Hd.
  pose proof (to_dictionary_optional e EpisodeAction.a_timestamp) as Ht.
  pose proof (to_dictionary_optional e EpisodeAction.a_position) as Hq.
  simpl in *.
  rewrite Hp, He, Ha, Hd, Ht, Hq by set_solver.
  split_and!; try reflexivity.
  - split; intros Hs.
    + destruct (EpisodeAction.device e); simpl in *; by destruct Hs.
    + apply is_None_false in Hs. rewrite Hs. eauto.
  - split; intros Hs.
    + destruct (EpisodeAction.timestamp e); simpl in *; by destruct Hs.
    + apply is_None_false in Hs. rewrite Hs. eauto.
  - split; intros Hs.
    + destruct (EpisodeAction.position e); simpl in *; by destruct Hs.
    + apply is_None_false in Hs. rewrite Hs. eauto.
  - intros v. destruct (is_None (EpisodeAction.device e)); congruence.
  - intros v. destruct (is_None (EpisodeAction.timestamp e)); congruence.
  - intros v. destruct (is_None (EpisodeAction.position e)); congruence.
  - intros k Hk. apply to_dictionary_dom in Hk as [a ->].
    destruct a; simpl; set_solver.
Qed.

(** C1. For every validly constructed [EpisodeAction] [e], that is, every
    result of a successful [__init__], [from_dictionary(e.to_dictionary())]
    succeeds and yields an object equal to [e] field by field: the mandatory
    fields, the optional fields that are set, and [None] where [e] has
    [None]. *)
Theorem from_dictionary_to_dictionary {U : Util}
    (podcast episode action device timestamp position : pyval)
    (e : EpisodeAction.t) :
  EpisodeAction.__init__ podcast episode action device timestamp position = Ok e →
  EpisodeAction.from_dictionary (PDict (EpisodeAction.to_dictionary e)) = Ok e.
Proof.
  intros Hinit. pose proof (init_Ok_fields _ _ _ _ _ _ _ Hinit) as He.
  unfold EpisodeAction.from_dictionary.
  pose proof (to_dictionary_mandatory e EpisodeAction.a_podcast) as Hp.
  pose proof (to_dictionary_mandatory e EpisodeAction.a_episode) as Hep.
  pose proof (to_dictionary_mandatory e EpisodeAction.a_action) as Ha.
  pose proof (py_get_to_dictionary e EpisodeAction.a_device) as Hd.
  pose proof (py_get_to_dictionary e EpisodeAction.a_timestamp) as Ht.
  pose proof (py_get_to_dictionary e EpisodeAction.a_position) as Hq.
  cbn [EpisodeAction.name EpisodeAction.getattr] in *.
  unfold py_getitem.
  rewrite Hp, Hep, Ha by set_solver. cbn [mbind result_bind].
  rewrite Hd, Ht, Hq by set_solver. cbn [mbind result_bind].
  subst e. exact Hinit.
Qed.

Lemma from_dictionary_to_dictionary_witness :
  let e := EpisodeAction.mk (PStr "http://example.org/feed.xml")
             (PStr "http://example.org/episode1.mp3") (PStr "play")
             (PStr "phone") (PStr "2009-12-29T19:25:33") (PStr "00:01:30") in
  EpisodeAction.__init__ (U := StandIn.util) (EpisodeAction.podcast e)
    (EpisodeAction.episode e) (EpisodeAction.action e) (EpisodeAction.device e)
    (EpisodeAction.timestamp e) (EpisodeAction.position e) = Ok e
  ∧ EpisodeAction.from_dictionary (U := StandIn.util)
      (PDict (EpisodeAction.to_dictionary e)) = Ok e.
Proof.
  split; [reflexivity |].
  apply (from_dictionary_to_dictionary (U := StandIn.util)
           (PStr "http://example.org/feed.xml")
           (PStr "http://example.org/episode1.mp3") (PStr "play")
           (PStr "phone") (PStr "2009-12-29T19:25:33") (PStr "00:01:30")).
  reflexivity.
Defined.

(** C6. Construction fails for every action that is not one of download,
    play, delete, new; it fails for every action other than play when a
    position other than [None] is given; and when the action is valid and
    either is play or comes with no position, neither of these two checks
    fails: the outcome is that of the two format checks, and construction
    succeeds when they pass. *)
Theorem init_action_checks {U : Util}
    (podcast episode action device timestamp position : pyval) :
  let r := EpisodeAction.__init__ podcast episode action device timestamp position in
  (action ∉ PStr <$> EpisodeAction.VALID_ACTIONS →
     r = Raise (ValueError "Invalid action type (see VALID_TYPES)"))
  ∧ (action ≠ PStr "play" → position ≠ PNone → ∃ msg, r = Raise (ValueError msg))
  ∧ (action ∈ PStr <$> EpisodeAction.VALID_ACTIONS →
     action = PStr "play" ∨ position = PNone →
       r = (_ ← EpisodeAction.check_timestamp timestamp;
            _ ← EpisodeAction.check_position position;
            Ok (EpisodeAction.mk podcast episode action device timestamp position))
       ∧ (EpisodeAction.check_timestamp timestamp = Ok tt →
          EpisodeAction.check_position position = Ok tt →
            r = Ok (EpisodeAction.mk podcast episode action device timestamp
                      position))).
Proof.
  intros r. subst r. unfold EpisodeAction.__init__. split_and!.
  - intros Hin. apply py_in_tuple_false in Hin. by rewrite Hin.
  - intros Hplay Hpos. apply py_eq_str_false in Hplay.
    apply is_None_false in Hpos. rewrite Hplay, Hpos. simpl.
    destruct (negb _); eauto.
  - intros Hin Hor. apply py_in_tuple_true in Hin. rewrite Hin. simpl.
    assert (negb (py_eq_str action "play") && negb (is_None position) = false)
      as ->.
    { destruct Hor as [-> | ->]; [reflexivity |]. by rewrite andb_false_r. }
    split; [reflexivity |]. intros -> ->. reflexivity.
Qed.

Lemma init_action_checks_witness :
  EpisodeAction.__init__ (U := StandIn.util) (PStr "feed") (PStr "episode")
    (PStr "pause") PNone PNone PNone
  = Raise (ValueError "Invalid action type (see VALID_TYPES)")
  ∧ (∃ msg, EpisodeAction.__init__ (U := StandIn.util) (PStr "feed") (PStr "episode")
              (PStr "download") PNone PNone (PStr "00:00:05")
            = Raise (ValueError msg))
  ∧ EpisodeAction.__init__ (U := StandIn.util) (PStr "feed") (PStr "episode")
      (PStr "play") PNone PNone (PStr "00:00:05")
    = Ok (EpisodeAction.mk (PStr "feed") (PStr "episode") (PStr "play") PNone
            PNone (PStr "00:00:05"))
  ∧ EpisodeAction.__init__ (U := StandIn.util) (PStr "feed") (PStr "episode")
      (PStr "new") PNone PNone PNone
    = Ok (EpisodeAction.mk (PStr "feed") (PStr "episode") (PStr "new") PNone
            PNone PNone).
Proof.
  split_and!.
  - apply (init_action_checks (U := StandIn.util) (PStr "feed") (PStr "episode")
             (PStr "pause") PNone PNone PNone).
    apply py_in_tuple_false. reflexivity.
  - apply (init_action_checks (U := StandIn.util) (PStr "feed") (PStr "episode")
             (PStr "download") PNone PNone (PStr "00:00:05")); discriminate.
  - apply (init_action_checks (U := StandIn.util) (PStr "feed") (PStr "episode")
             (PStr "play") PNone PNone (PStr "00:00:05")).
    + apply py_in_tuple_true. reflexivity.
    + left. reflexivity.
    + reflexivity.
    + reflexivity.
  - apply (init_action_checks (U := StandIn.util) (PStr "feed") (PStr "episode")
             (PStr "new") PNone PNone PNone).
    + apply py_in_tuple_true. reflexivity.
    + right. reflexivity.
    + reflexivity.
    + reflexivity.
Defined.

(** A key that is none of the six does not matter. *)
Lemma from_dictionary_extra_key {U : Util} (d : gmap string pyval)
    (k : string) (v : pyval) :
  k ∉ ["podcast"; "episode"; "action"; "device"; "timestamp"; "position"] →
  EpisodeAction.from_dictionary (PDict (<[k := v]> d))
  = EpisodeAction.from_dictionary (PDict d).
Proof.
  intros Hk. unfold EpisodeAction.from_dictionary, py_getitem, py_get.
  rewrite !(lookup_insert_ne d k) by (intros ->; apply Hk; in_literal).
  reflexivity.
Qed.

(** C9. [from_dictionary] depends only on the keys podcast, episode, action,
    device, timestamp and position: on two dictionaries that agree on the
    three mandatory keys (absent in both or the same value in both) and on
    the three optional keys (an absent key counting as [None]), it raises the
    same exception or returns the same object. *)
Theorem from_dictionary_six_keys {U : Util} (d1 d2 : gmap string pyval) :
  (∀ k, k ∈ ["podcast"; "episode"; "action"] → d1 !! k = d2 !! k) →
  (∀ k, k ∈ ["device"; "timestamp"; "position"] →
     default PNone (d1 !! k) = default PNone (d2 !! k)) →
  EpisodeAction.from_dictionary (PDict d1) = EpisodeAction.from_dictionary (PDict d2).
Proof.
  intros Hmandatory Hoptional.
  unfold EpisodeAction.from_dictionary, py_getitem, py_get.
  rewrite (Hmandatory "podcast"), (Hmandatory "episode"), (Hmandatory "action")
    by in_literal.
  rewrite (Hoptional "device"), (Hoptional "timestamp"), (Hoptional "position")
    by in_literal.
  reflexivity.
Qed.

Lemma from_dictionary_six_keys_witness :
  let d1 : gmap string pyval :=
    <["rating" := PInt 5]> (<["action" := PStr "new"]>
      (<["episode" := PStr "e"]> (<["podcast" := PStr "p"]> ∅))) in
  let d2 : gmap string pyval :=
    <["device" := PNone]> (<["action" := PStr "new"]>
      (<["episode" := PStr "e"]> (<["podcast" := PStr "p"]> ∅))) in
  EpisodeAction.from_dictionary (U := StandIn.util) (PDict d1)
  = EpisodeAction.from_dictionary (U := StandIn.util) (PDict d2).
Proof.
  intros d1 d2.
  apply (from_dictionary_six_keys (U := StandIn.util) d1 d2); intros k Hk;
    repeat (apply elem_of_cons in Hk as [-> | Hk]; [reflexivity |]);
    inversion Hk.
Defined.

(** ** PodcastDevice *)

Lemma from_dictionary_present (d : gmap string pyval)
    (device_id caption type subscriptions : pyval) :
  d !! "id" = Some device_id →
  d !! "caption" = Some caption →
  d !! "type" = Some type →
  d !! "subscriptions" = Some subscriptions →
  PodcastDevice.from_dictionary (PDict d)
  = PodcastDevice.__init__ device_id caption type subscriptions.
Proof.
  intros Hi Hc Ht Hs. unfold PodcastDevice.from_dictionary, py_getitem.
  rewrite Hi, Hc, Ht, Hs. reflexivity.
Qed.

(** C7. [PodcastDevice.from_dictionary] raises [KeyError] when one of the
    keys id, caption, type, subscriptions is absent; with all four present
    it raises [ValueError] when the type is not one of desktop, laptop,
    mobile, server, other; and with a valid type and a subscriptions value
    that [int()] accepts, it returns the device whose [device_id] is the
    value under id and whose [subscriptions] is that integer. The dictionary
    of the example yields [device_id = 'd1'] and [subscriptions = 3]. *)
Theorem PodcastDevice_from_dictionary (d : gmap string pyval) :
  ((∃ k, k ∈ ["id"; "caption"; "type"; "subscriptions"] ∧ d !! k = None) →
     ∃ k, k ∈ ["id"; "caption"; "type"; "subscriptions"] ∧ d !! k = None
          ∧ PodcastDevice.from_dictionary (PDict d) = Raise (KeyError k))
  ∧ (∀ device_id caption type subscriptions,
       d !! "id" = Some device_id →
       d !! "caption" = Some caption →
       d !! "type" = Some type →
       d !! "subscriptions" = Some subscriptions →
       (type ∉ PStr <$> PodcastDevice.VALID_TYPES →
          PodcastDevice.from_dictionary (PDict d)
          = Raise (ValueError "Invalid device type (see VALID_TYPES)"))
       ∧ (type ∈ PStr <$> PodcastDevice.VALID_TYPES →
          ∀ n, py_int subscriptions = Ok n →
            PodcastDevice.from_dictionary (PDict d)
            = Ok (PodcastDevice.mk device_id caption type n)))
  ∧ PodcastDevice.from_dictionary
      (PDict (<["subscriptions" := PStr "3"]> (<["type" := PStr "mobile"]>
                (<["caption" := PStr "C"]> (<["id" := PStr "d1"]> ∅)))))
    = Ok (PodcastDevice.mk (PStr "d1") (PStr "C") (PStr "mobile") 3).
Proof.
  split_and!.
  - intros (k & Hk & Hnone). unfold PodcastDevice.from_dictionary, py_getitem.
    destruct (d !! "id") as [i|] eqn:Hi; simpl;
      [| exists "id"; split_and!; [in_literal | done | done]].
    destruct (d !! "caption") as [c|] eqn:Hc; simpl;
      [| exists "caption"; split_and!; [in_literal | done | done]].
    destruct (d !! "type") as [t|] eqn:Ht; simpl;
      [| exists "type"; split_and!; [in_literal | done | done]].
    destruct (d !! "subscriptions") as [s|] eqn:Hs; simpl;
      [| exists "subscriptions"; split_and!; [in_literal | done | done]].
    repeat (apply elem_of_cons in Hk as [-> | Hk]; [congruence |]).
    inversion Hk.
  - intros device_id caption type subscriptions Hi Hc Ht Hs.
    rewrite (from_dictionary_present d _ _ _ _ Hi Hc Ht Hs).
    unfold PodcastDevice.__init__. split.
    + intros Hin. apply py_in_tuple_false in Hin. by rewrite Hin.
    + intros Hin n Hn. apply py_in_tuple_true in Hin. rewrite Hin, Hn.
      reflexivity.
  - reflexivity.
Qed.

Lemma PodcastDevice_from_dictionary_witness :
  let full : gmap string pyval :=
    <["subscriptions" := PStr "3"]> (<["type" := PStr "mobile"]>
      (<["caption" := PStr "C"]> (<["id" := PStr "d1"]> ∅))) in
  let tablet : gmap string pyval := <["type" := PStr "tablet"]> full in
  let nameless : gmap string pyval := delete "caption" full in
  (∃ k, nameless !! k = None
        ∧ PodcastDevice.from_dictionary (PDict nameless) = Raise (KeyError k))
  ∧ PodcastDevice.from_dictionary (PDict tablet)
    = Raise (ValueError "Invalid device type (see VALID_TYPES)")
  ∧ PodcastDevice.from_dictionary (PDict full)
    = Ok (PodcastDevice.mk (PStr "d1") (PStr "C") (PStr "mobile") 3).
Proof.
  intros full tablet nameless. split_and!.
  - destruct (PodcastDevice_from_dictionary nameless) as [Hmissing _].
    destruct Hmissing as (k & _ & Hk & Hr).
    + exists "caption". split; [in_literal | reflexivity].
    + exists k. split; assumption.
  - destruct (PodcastDevice_from_dictionary tablet) as (_ & Hpresent & _).
    apply (Hpresent (PStr "d1") (PStr "C") (PStr "tablet") (PStr "3"));
      try reflexivity.
    apply py_in_tuple_false. reflexivity.
  - destruct (PodcastDevice_from_dictionary full) as (_ & Hpresent & _).
    apply (Hpresent (PStr "d1") (PStr "C") (PStr "mobile") (PStr "3"));
      try reflexivity.
    apply py_in_tuple_true. reflexivity.
Defined.

(** ** MygPodderClient *)

Lemma py_in_present (d : gmap string pyval) (k : string) (v : pyval) :
  d !! k = Some v → py_in k (PDict d) = Ok true.
Proof. intros Hk. simpl. rewrite Hk. reflexivity. Qed.

Lemma py_in_absent (d : gmap string pyval) (k : string) :
  d !! k = None → py_in k (PDict d) = Ok false.
Proof. intros Hk. simpl. rewrite Hk. reflexivity. Qed.

Lemma py_getitem_present (d : gmap string pyval) (k : string) (v : pyval) :
  d !! k = Some v → py_getitem (PDict d) k = Ok v.
Proof. intros Hk. simpl. rewrite Hk. reflexivity. Qed.

Lemma all_str_strings (l : list string) : all_str (PList (PStr <$> l)) = Ok true.
Proof.
  unfold all_str. simpl. f_equal. induction l as [|s l IH]; [reflexivity | exact IH].
Qed.

Section ClientProperties.
Import MygPodderClient.
Context {U : Util} {L : Locator}.

(** One GET, then the reply is interpreted. *)
Lemma run_pull_subscriptions device_id since uri transport data :
  subscription_updates_uri device_id since = Ok uri →
  transport (GET uri) = Ok data →
  run transport (pull_subscriptions device_id since) = subscription_changes data.
Proof.
  intros Huri Hreply. unfold pull_subscriptions. rewrite Huri. simpl.
  rewrite Hreply. reflexivity.
Qed.

Lemma run_download_episode_actions since podcast device_id uri transport data :
  download_episode_actions_uri since podcast device_id = Ok uri →
  transport (GET uri) = Ok data →
  run transport (download_episode_actions since podcast device_id)
  = episode_action_changes data.
Proof.
  intros Huri Hreply. unfold download_episode_actions. rewrite Huri. simpl.
  rewrite Hreply. reflexivity.
Qed.

(** A reply with the three keys, lists of strings and a timestamp that
    [int()] accepts. *)
Lemma subscription_changes_Ok (d : gmap string pyval) (adds removes : list string)
    (ts : pyval) (n : Z) :
  d !! "add" = Some (PList (PStr <$> adds)) →
  d !! "remove" = Some (PList (PStr <$> removes)) →
  d !! "timestamp" = Some ts →
  py_int ts = Ok n →
  subscription_changes (PDict d)
  = Ok (SubscriptionChanges.mk (PList (PStr <$> adds)) (PList (PStr <$> removes)) n).
Proof.
  intros Ha Hr Ht Hn. unfold subscription_changes.
  cbn [is_None].
  rewrite (py_in_present _ _ _ Ha), (py_in_present _ _ _ Hr),
    (py_in_present _ _ _ Ht).
  rewrite (py_getitem_present _ _ _ Ha), (py_getitem_present _ _ _ Hr),
    (py_getitem_present _ _ _ Ht).
  cbn [mbind result_bind negb]. rewrite !all_str_strings.
  cbn [mbind result_bind negb]. rewrite Hn. reflexivity.
Qed.

(** A reply that is null, or on which one of the three membership tests of
    lines 201-208 is false: the test is defined on a dictionary (is the key
    present), on a list (is the string an element) and on a string (is it a
    substring). *)
Lemma subscription_changes_absent (data : pyval) :
  data = PNone
  ∨ (∃ k, k ∈ ["add"; "remove"; "timestamp"] ∧ py_in k data = Ok false) →
  ∃ msg, subscription_changes data = Raise (InvalidResponse msg).
Proof.
  intros [-> | (k & Hk & Hfalse)]; [by eexists |].
  unfold subscription_changes.
  destruct data as [| | | |s|l|d]; cbn [py_in] in Hfalse;
    try discriminate Hfalse; injection Hfalse as Hf;
    cbn [is_None py_in mbind result_bind].
  - destruct (is_substring "add" s) eqn:Ea; cbn [negb]; [| by eexists].
    destruct (is_substring "remove" s) eqn:Er; cbn [negb]; [| by eexists].
    destruct (is_substring "timestamp" s) eqn:Et; cbn [negb]; [| by eexists].
    exfalso. repeat (apply elem_of_cons in Hk as [-> | Hk]; [congruence |]).
    inversion Hk.
  - destruct (existsb (fun v => py_eq_str v "add") l) eqn:Ea; cbn [negb];
      [| by eexists].
    destruct (existsb (fun v => py_eq_str v "remove") l) eqn:Er; cbn [negb];
      [| by eexists].
    destruct (existsb (fun v => py_eq_str v "timestamp") l) eqn:Et; cbn [negb];
      [| by eexists].
    exfalso. repeat (apply elem_of_cons in Hk as [-> | Hk]; [congruence |]).
    inversion Hk.
  - destruct (bool_decide (is_Some (d !! "add"))) eqn:Ea; cbn [negb];
      [| by eexists].
    destruct (bool_decide (is_Some (d !! "remove"))) eqn:Er; cbn [negb];
      [| by eexists].
    destruct (bool_decide (is_Some (d !! "timestamp"))) eqn:Et; cbn [negb];
      [| by eexists].
    exfalso. repeat (apply elem_of_cons in Hk as [-> | Hk]; [congruence |]).
    inversion Hk.
Qed.

(** A reply that is a number or a boolean supports no membership test. *)
Lemma subscription_changes_number (data : pyval) :
  (∃ b, data = PBool b) ∨ (∃ n, data = PInt n) ∨ (∃ f, data = PFloat f) →
  subscription_changes data = Raise TypeError.
Proof. intros [[b ->] | [[n ->] | [f ->]]]; reflexivity. Qed.
End ClientProperties.

(** C3. When the locator gives a URI and the transport answers the GET with
    a dictionary whose add and remove values are lists of strings and whose
    timestamp value is accepted by [int()], [pull_subscriptions] returns the
    [SubscriptionChanges] with exactly those two lists and with the integer
    of the timestamp as [since]. The instance proved after it is the reply
    [{'add': ['http://a'], 'remove': [], 'timestamp': '42'}], which gives
    [SubscriptionChanges(add=['http://a'], remove=[], since=42)]. *)
Theorem pull_subscriptions_returns {L : Locator} (device_id since : pyval)
    (uri : string) (transport : request → result pyval)
    (d : gmap string pyval) (adds removes : list string) (ts : pyval) (n : Z) :
  subscription_updates_uri device_id since = Ok uri →
  transport (GET uri) = Ok (PDict d) →
  d !! "add" = Some (PList (PStr <$> adds)) →
  d !! "remove" = Some (PList (PStr <$> removes)) →
  d !! "timestamp" = Some ts →
  py_int ts = Ok n →
  run transport (MygPodderClient.pull_subscriptions device_id since)
  = Ok (SubscriptionChanges.mk (PList (PStr <$> adds)) (PList (PStr <$> removes)) n).
Proof.
  intros Huri Hreply Ha Hr Ht Hn.
  rewrite (run_pull_subscriptions _ _ _ _ _ Huri Hreply).
  by apply subscription_changes_Ok with ts.
Qed.

Lemma pull_subscriptions_returns_witness :
  let response : gmap string pyval :=
    <["timestamp" := PStr "42"]> (<["remove" := PList []]>
      (<["add" := PList [PStr "http://a"]]> ∅)) in
  run (StandIn.reply_with (PDict response))
    (MygPodderClient.pull_subscriptions (L := StandIn.locator) (PStr "phone") PNone)
  = Ok (SubscriptionChanges.mk (PList [PStr "http://a"]) (PList []) 42).
Proof.
  intros response.
  apply (pull_subscriptions_returns (L := StandIn.locator) (PStr "phone") PNone
           "/api/1/subscriptions/phone.json"
           (StandIn.reply_with (PDict response)) response ["http://a"] []
           (PStr "42") 42); reflexivity.
Defined.

(** C4. When the locator gives a URI, [pull_subscriptions] raises
    [InvalidResponse] for every reply that is null and for every reply on
    which one of the tests ['add' in data], ['remove' in data], ['timestamp'
    in data] is false, which is a dictionary without that key, or a list or
    a string without that string in it. A reply that is a number or a
    boolean supports no such test and raises [TypeError]. A reply whose add
    value (or remove value) is the empty list, the other value being a list
    of strings and the timestamp being accepted by [int()], succeeds with
    that empty list. *)
Theorem pull_subscriptions_absent_or_empty {L : Locator} (device_id since : pyval)
    (uri : string) (transport : request → result pyval) (data : pyval) :
  subscription_updates_uri device_id since = Ok uri →
  transport (GET uri) = Ok data →
  let r := run transport (MygPodderClient.pull_subscriptions device_id since) in
  (data = PNone
   ∨ (∃ k, k ∈ ["add"; "remove"; "timestamp"] ∧ py_in k data = Ok false) →
     ∃ msg, r = Raise (InvalidResponse msg))
  ∧ (∀ d k, data = PDict d →
       k ∈ ["add"; "remove"; "timestamp"] →
       d !! k = None →
       ∃ msg, r = Raise (InvalidResponse msg))
  ∧ ((∃ b, data = PBool b) ∨ (∃ n, data = PInt n) ∨ (∃ f, data = PFloat f) →
     r = Raise TypeError)
  ∧ (∀ d (removes : list string) ts n,
       data = PDict d →
       d !! "add" = Some (PList []) →
       d !! "remove" = Some (PList (PStr <$> removes)) →
       d !! "timestamp" = Some ts →
       py_int ts = Ok n →
       r = Ok (SubscriptionChanges.mk (PList []) (PList (PStr <$> removes)) n))
  ∧ (∀ d (adds : list string) ts n,
       data = PDict d →
       d !! "add" = Some (PList (PStr <$> adds)) →
       d !! "remove" = Some (PList []) →
       d !! "timestamp" = Some ts →
       py_int ts = Ok n →
       r = Ok (SubscriptionChanges.mk (PList (PStr <$> adds)) (PList []) n)).
Proof.
  intros Huri Hreply r. subst r.
  rewrite (run_pull_subscriptions _ _ _ _ _ Huri Hreply). split_and!.
  - apply subscription_changes_absent.
  - intros d k -> Hk Hnone. apply subscription_changes_absent.
    right. exists k. split; [exact Hk | by apply py_in_absent].
  - apply subscription_changes_number.
  - intros d removes ts n -> Ha Hr Ht Hn.
    by apply (subscription_changes_Ok d [] removes ts n).
  - intros d adds ts n -> Ha Hr Ht Hn.
    by apply (subscription_changes_Ok d adds [] ts n).
Qed.

Lemma pull_subscriptions_absent_or_empty_witness :
  let pull reply :=
    run (StandIn.reply_with reply)
      (MygPodderClient.pull_subscriptions (L := StandIn.locator) (PStr "phone")
         (PInt 41)) in
  let no_timestamp : gmap string pyval :=
    <["remove" := PList []]> (<["add" := PList [PStr "http://a"]]> ∅) in
  let no_additions : gmap string pyval :=
    <["timestamp" := PInt 42]> (<["remove" := PList [PStr "http://b"]]>
      (<["add" := PList []]> ∅)) in
  (∃ msg, pull PNone = Raise (InvalidResponse msg))
  ∧ (∃ msg, pull (PDict no_timestamp) = Raise (InvalidResponse msg))
  ∧ (∃ msg, pull (PList [PStr "add"; PStr "timestamp"])
            = Raise (InvalidResponse msg))
  ∧ (∃ msg, pull (PStr "no address") = Raise (InvalidResponse msg))
  ∧ pull (PFloat (S754_zero false)) = Raise TypeError
  ∧ pull (PDict no_additions)
    = Ok (SubscriptionChanges.mk (PList []) (PList [PStr "http://b"]) 42).
Proof.
  intros pull no_timestamp no_additions.
  pose (absent reply :=
          pull_subscriptions_absent_or_empty (L := StandIn.locator)
            (PStr "phone") (PInt 41) "/api/1/subscriptions/phone.json"
            (StandIn.reply_with reply) reply eq_refl eq_refl).
  split_and!.
  - destruct (absent PNone) as (Habsent & _). apply Habsent. left. reflexivity.
  - destruct (absent (PDict no_timestamp)) as (_ & Hkey & _).
    apply (Hkey no_timestamp "timestamp"); [reflexivity | in_literal | reflexivity].
  - destruct (absent (PList [PStr "add"; PStr "timestamp"])) as (Habsent & _).
    apply Habsent. right. exists "remove". split; [in_literal | reflexivity].
  - destruct (absent (PStr "no address")) as (Habsent & _).
    apply Habsent. right. exists "remove". split; [in_literal | reflexivity].
  - destruct (absent (PFloat (S754_zero false))) as (_ & _ & Hnumber & _).
    apply Hnumber. right. right. by eexists.
  - destruct (absent (PDict no_additions)) as (_ & _ & _ & Hempty & _).
    apply (Hempty no_additions ["http://b"] (PInt 42) 42); reflexivity.
Defined.

(** Replies without any key on which [InvalidResponse] is not what is
    raised: a number and a boolean are not null and hold nothing under add,
    remove or timestamp, and [pull_subscriptions] raises the [TypeError] of
    the test of line 201 on them. *)
Lemma pull_subscriptions_TypeError :
  let pull reply :=
    run (StandIn.reply_with reply)
      (MygPodderClient.pull_subscriptions (L := StandIn.locator) (PStr "phone")
         PNone) in
  PInt 5 ≠ PNone
  ∧ (∀ k v, py_getitem (PInt 5) k ≠ Ok v)
  ∧ pull (PInt 5) = Raise TypeError
  ∧ pull (PBool true) = Raise TypeError
  ∧ isInvalidResponse TypeError = false.
Proof. split_and!; [discriminate | intros k v; discriminate | reflexivity ..]. Qed.

(** C8. When the locator gives a URI and the transport's PUT returns a
    value, [update_device_settings] returns [True] if that value is [None]
    and [False] otherwise; it raises for no returned value. *)
Theorem update_device_settings_result {L : Locator}
    (device_id caption type : pyval) (uri : string)
    (transport : request → result pyval) (reply : pyval) :
  device_settings_uri device_id = Ok uri →
  transport (PUT uri (PDict (MygPodderClient.device_settings caption type)))
  = Ok reply →
  let r := run transport
             (MygPodderClient.update_device_settings device_id caption type) in
  (reply = PNone → r = Ok true) ∧ (reply ≠ PNone → r = Ok false).
Proof.
  intros Huri Hreply r. subst r.
  unfold MygPodderClient.update_device_settings. rewrite Huri. simpl.
  rewrite Hreply. simpl. split.
  - intros ->. reflexivity.
  - intros Hne. apply is_None_false in Hne. by rewrite Hne.
Qed.

Lemma update_device_settings_result_witness :
  run (StandIn.reply_with PNone)
    (MygPodderClient.update_device_settings (L := StandIn.locator)
       (PStr "phone") (PStr "My phone") (PStr "mobile")) = Ok true
  ∧ run (StandIn.reply_with (PDict ∅))
      (MygPodderClient.update_device_settings (L := StandIn.locator)
         (PStr "phone") (PStr "My phone") (PStr "mobile")) = Ok false.
Proof.
  split.
  - apply (update_device_settings_result (L := StandIn.locator) (PStr "phone")
             (PStr "My phone") (PStr "mobile") "/api/1/devices/phone.json"
             (StandIn.reply_with PNone) PNone); reflexivity.
  - apply (update_device_settings_result (L := StandIn.locator) (PStr "phone")
             (PStr "My phone") (PStr "mobile") "/api/1/devices/phone.json"
             (StandIn.reply_with (PDict ∅)) (PDict ∅)); [reflexivity .. |].
    discriminate.
Defined.

(** C10. When the locator gives a URI, [update_device_settings] sends
    exactly one request, a PUT to that URI, whatever the caption and type
    are. Its body holds the key caption exactly when the caption is not
    [None] and the key type exactly when the type is not [None], each with
    the value given, and no other key; with both [None] the body is the
    empty dictionary. *)
Theorem update_device_settings_body {L : Locator}
    (device_id caption type : pyval) (uri : string) :
  device_settings_uri device_id = Ok uri →
  let data := MygPodderClient.device_settings caption type in
  (∀ transport,
     requests transport
       (MygPodderClient.update_device_settings device_id caption type)
     = [PUT uri (PDict data)])
  ∧ (caption = PNone → type = PNone → data = ∅)
  ∧ data !! "caption" = (if is_None caption then None else Some caption)
  ∧ data !! "type" = (if is_None type then None else Some type)
  ∧ (is_Some (data !! "caption") ↔ caption ≠ PNone)
  ∧ (is_Some (data !! "type") ↔ type ≠ PNone)
  ∧ (∀ k, is_Some (data !! k) → k = "caption" ∨ k = "type").
Proof.
  intros Huri data. subst data.
  assert (MygPodderClient.device_settings caption type !! "caption"
          = if is_None caption then None else Some caption) as Hc.
  { unfold MygPodderClient.device_settings.
    destruct (is_None caption), (is_None type); simpl; by simplify_map_eq. }
  assert (MygPodderClient.device_settings caption type !! "type"
          = if is_None type then None else Some type) as Ht.
  { unfold MygPodderClient.device_settings.
    destruct (is_None caption), (is_None type); simpl; by simplify_map_eq. }
  split_and!.
  - intros transport. unfold MygPodderClient.update_device_settings.
    rewrite Huri. simpl. destruct (transport _); reflexivity.
  - intros -> ->. reflexivity.
  - exact Hc.
  - exact Ht.
  - rewrite Hc, <- is_None_false. destruct (is_None caption); split;
      first [done | by intros []| eauto].
  - rewrite Ht, <- is_None_false. destruct (is_None type); split;
      first [done | by intros [] | eauto].
  - intros k. unfold MygPodderClient.device_settings.
    destruct (is_None caption), (is_None type); simpl; intros Hk;
      repeat (rewrite lookup_insert in Hk; case_decide; [subst k; by eauto |]);
      rewrite lookup_empty in Hk; by destruct Hk.
Qed.

Lemma update_device_settings_body_witness :
  requests (StandIn.reply_with PNone)
    (MygPodderClient.update_device_settings (L := StandIn.locator)
       (PStr "phone") PNone PNone)
  = [PUT "/api/1/devices/phone.json" (PDict ∅)].
Proof.
  destruct (update_device_settings_body (L := StandIn.locator) (PStr "phone")
              PNone PNone "/api/1/devices/phone.json" eq_refl)
    as (Hrequests & Hempty & _).
  rewrite <- (Hempty eq_refl eq_refl). apply Hrequests.
Defined.

(** *** download_episode_actions *)

Section DownloadProperties.
Import MygPodderClient.
Context {U : Util}.


(** The comprehension stops at the first element that raises. *)
Lemma comprehension_first_Raise {A B} (f : A → result B) (before after : list A)
    (x : A) (ys : list B) (e : exn) :
  comprehension f before = Ok ys →
  f x = Raise e →
  comprehension f (before ++ x :: after) = Raise e.
Proof.
  revert ys. induction before as [|b before IH]; intros ys; simpl.
  - intros _ ->. reflexivity.
  - destruct (f b) as [y|]; simpl; [| discriminate].
    destruct (comprehension f before) as [ys'|] eqn:Hbefore; simpl;
      [| discriminate].
    intros _ Hx. by rewrite (IH ys' eq_refl Hx).
Qed.

End DownloadProperties.




(** The reply [{'actions': [{'podcast': 'p', 'episode': 'e', 'action':
    'new'}], 'timestamp': 5}] gives one action and the cursor 5. *)
Example download_episode_actions_example :
  let action : gmap string pyval :=
    <["action" := PStr "new"]> (<["episode" := PStr "e"]>
      (<["podcast" := PStr "p"]> ∅)) in
  let reply : gmap string pyval :=
    <["timestamp" := PInt 5]> (<["actions" := PList [PDict action]]> ∅) in
  run (StandIn.reply_with (PDict reply))
    (MygPodderClient.download_episode_actions (U := StandIn.util)
       (L := StandIn.locator) PNone PNone PNone)
  = Ok (EpisodeActionChanges.mk
          [EpisodeAction.mk (PStr "p") (PStr "e") (PStr "new") PNone PNone PNone]
          5).
Proof. reflexivity. Qed.

(** An action with an unknown name is rejected by [__init__], and that
    [ValueError] is what [download_episode_actions] raises. *)
Example download_episode_actions_ValueError :
  let action : gmap string pyval :=
    <["action" := PStr "pause"]> (<["episode" := PStr "e"]>
      (<["podcast" := PStr "p"]> ∅)) in
  let reply : gmap string pyval :=
    <["timestamp" := PInt 5]> (<["actions" := PList [PDict action]]> ∅) in
  run (StandIn.reply_with (PDict reply))
    (MygPodderClient.download_episode_actions (U := StandIn.util)
       (L := StandIn.locator) PNone PNone PNone)
  = Raise (ValueError "Invalid action type (see VALID_TYPES)").
Proof. reflexivity. Qed.

(** * Further properties *)

(** ** PodcastDevice.__init__ *)

(** Whatever [int()] raises on the subscriptions value (a [TypeError] for
    [None] or a list, an [OverflowError] for an infinity, a [ValueError] for
    a NaN or for a string of ASCII characters that is no number), the bare
    [except] of lines 68-71 turns it into the [ValueError] of line 71, once
    the type has passed. *)
Theorem PodcastDevice_init_not_numeric
    (device_id caption type subscriptions : pyval) (e : exn) :
  type ∈ PStr <$> PodcastDevice.VALID_TYPES →
  (∀ s, subscriptions = PStr s → isascii s = true) →
  py_int subscriptions = Raise e →
  PodcastDevice.__init__ device_id caption type subscriptions
  = Raise (ValueError "Subscription must be a numeric value").
Proof.
  intros Htype _ Hint. unfold PodcastDevice.__init__.
  apply py_in_tuple_true in Htype. rewrite Htype, Hint. reflexivity.
Qed.

Lemma PodcastDevice_init_not_numeric_witness :
  PodcastDevice.__init__ (PStr "d1") (PStr "C") (PStr "mobile") PNone
  = Raise (ValueError "Subscription must be a numeric value")
  ∧ PodcastDevice.__init__ (PStr "d1") (PStr "C") (PStr "mobile")
      (PFloat (S754_infinity false))
    = Raise (ValueError "Subscription must be a numeric value")
  ∧ PodcastDevice.__init__ (PStr "d1") (PStr "C") (PStr "mobile") (PStr "many")
    = Raise (ValueError "Subscription must be a numeric value").
Proof.
  split_and!.
  - apply (PodcastDevice_init_not_numeric (PStr "d1") (PStr "C") (PStr "mobile")
             PNone TypeError);
      [apply py_in_tuple_true; reflexivity | discriminate | reflexivity].
  - apply (PodcastDevice_init_not_numeric (PStr "d1") (PStr "C") (PStr "mobile")
             (PFloat (S754_infinity false)) OverflowError);
      [apply py_in_tuple_true; reflexivity | discriminate | reflexivity].
  - apply (PodcastDevice_init_not_numeric (PStr "d1") (PStr "C") (PStr "mobile")
             (PStr "many")
             (ValueError "invalid literal for int() with base 10"));
      [apply py_in_tuple_true; reflexivity | | reflexivity].
    intros s [= <-]. reflexivity.
Defined.

(** [PodcastDevice.__init__] raises nothing but [ValueError], whatever its
    arguments are. *)
Theorem PodcastDevice_init_only_ValueError
    (device_id caption type subscriptions : pyval) :
  (∃ device, PodcastDevice.__init__ device_id caption type subscriptions
             = Ok device)
  ∨ (∃ msg, PodcastDevice.__init__ device_id caption type subscriptions
            = Raise (ValueError msg)).
Proof.
  unfold PodcastDevice.__init__.
  destruct (negb (py_in_tuple type PodcastDevice.VALID_TYPES)); [by eauto |].
  destruct (py_int subscriptions) as [n|e]; cbn [try_except anyException mbind
    result_bind]; by eauto.
Qed.

(** A device that [__init__] returns has a valid type, holds the device id,
    the caption and the type it was given, and holds as [subscriptions] the
    integer of the value it was given. *)
Theorem PodcastDevice_init_Ok
    (device_id caption type subscriptions : pyval) (device : PodcastDevice.t) :
  PodcastDevice.__init__ device_id caption type subscriptions = Ok device →
  PodcastDevice.type device ∈ PStr <$> PodcastDevice.VALID_TYPES
  ∧ PodcastDevice.device_id device = device_id
  ∧ PodcastDevice.caption device = caption
  ∧ PodcastDevice.type device = type
  ∧ py_int subscriptions = Ok (PodcastDevice.subscriptions device).
Proof.
  unfold PodcastDevice.__init__.
  destruct (py_in_tuple type PodcastDevice.VALID_TYPES) eqn:Htype;
    cbn [negb]; [| raised].
  apply py_in_tuple_true in Htype.
  destruct (py_int subscriptions) as [n|e]; cbn [try_except anyException mbind
    result_bind]; [| raised].
  intros [= <-]. by split_and!.
Qed.

Lemma PodcastDevice_init_Ok_witness :
  let device := PodcastDevice.mk (PStr "d1") (PStr "C") (PStr "laptop") 12 in
  PodcastDevice.type device ∈ PStr <$> PodcastDevice.VALID_TYPES
  ∧ py_int (PFloat (S754_finite false 25 (-1)))
    = Ok (PodcastDevice.subscriptions device).
Proof.
  intros device.
  destruct (PodcastDevice_init_Ok (PStr "d1") (PStr "C") (PStr "laptop")
              (PFloat (S754_finite false 25 (-1))) device eq_refl)
    as (Htype & _ & _ & _ & Hint).
  split; assumption.
Defined.

(** What [PodcastDevice.from_dictionary] returns comes from the four keys:
    a returned device means the argument is a dictionary that holds all four,
    the type among them valid, and the device holds the values under id,
    caption and type and the integer of the value under subscriptions. *)
Theorem PodcastDevice_from_dictionary_Ok (d : pyval) (device : PodcastDevice.t) :
  PodcastDevice.from_dictionary d = Ok device →
  ∃ (m : gmap string pyval) (subscriptions : pyval),
    d = PDict m
    ∧ m !! "id" = Some (PodcastDevice.device_id device)
    ∧ m !! "caption" = Some (PodcastDevice.caption device)
    ∧ m !! "type" = Some (PodcastDevice.type device)
    ∧ m !! "subscriptions" = Some subscriptions
    ∧ py_int subscriptions = Ok (PodcastDevice.subscriptions device)
    ∧ PodcastDevice.type device ∈ PStr <$> PodcastDevice.VALID_TYPES.
Proof.
  unfold PodcastDevice.from_dictionary.
  destruct d as [| | | | | |m]; cbn [py_getitem mbind result_bind]; try raised.
  destruct (m !! "id") as [i|] eqn:Hi; cbn [mbind result_bind]; [| raised].
  destruct (m !! "caption") as [c|] eqn:Hc; cbn [mbind result_bind]; [| raised].
  destruct (m !! "type") as [t|] eqn:Ht; cbn [mbind result_bind]; [| raised].
  destruct (m !! "subscriptions") as [s|] eqn:Hs; cbn [mbind result_bind];
    [| raised].
  unfold PodcastDevice.__init__.
  destruct (py_in_tuple t PodcastDevice.VALID_TYPES) eqn:Htype;
    cbn [negb]; [| raised].
  apply py_in_tuple_true in Htype.
  destruct (py_int s) as [n|e] eqn:Hn; cbn [try_except anyException mbind
    result_bind]; [| raised].
  intros [= <-]. exists m, s. by split_and!.
Qed.

Lemma PodcastDevice_from_dictionary_Ok_witness :
  let m : gmap string pyval :=
    <["subscriptions" := PInt 4]> (<["type" := PStr "server"]>
      (<["caption" := PStr "NAS"]> (<["id" := PStr "d2"]> ∅))) in
  ∃ (m' : gmap string pyval) (subscriptions : pyval),
    PDict m = PDict m'
    ∧ m' !! "id" = Some (PStr "d2")
    ∧ m' !! "caption" = Some (PStr "NAS")
    ∧ m' !! "type" = Some (PStr "server")
    ∧ m' !! "subscriptions" = Some subscriptions
    ∧ py_int subscriptions = Ok 4
    ∧ PStr "server" ∈ PStr <$> PodcastDevice.VALID_TYPES.
Proof.
  intros m.
  apply (PodcastDevice_from_dictionary_Ok (PDict m)
           (PodcastDevice.mk (PStr "d2") (PStr "NAS") (PStr "server") 4)).
  reflexivity.
Defined.

(** ** EpisodeAction.__init__ *)

(** The invariants of a constructed [EpisodeAction]: it holds its six
    arguments as given, its action is one of the four valid ones, a position
    goes with the play action only, a timestamp that is given is one the
    parser returns a datetime for, and a position that is given is one the
    parser returns seconds for. *)
Theorem EpisodeAction_init_Ok {U : Util}
    (podcast episode action device timestamp position : pyval)
    (e : EpisodeAction.t) :
  EpisodeAction.__init__ podcast episode action device timestamp position = Ok e →
  e = EpisodeAction.mk podcast episode action device timestamp position
  ∧ action ∈ PStr <$> EpisodeAction.VALID_ACTIONS
  ∧ (position ≠ PNone → action = PStr "play")
  ∧ (timestamp ≠ PNone → ∃ dt, iso8601_to_datetime timestamp = Ok (Some dt))
  ∧ (position ≠ PNone → ∃ seconds, position_to_seconds position = Ok seconds).
Proof.
  intros Hinit. split; [by apply init_Ok_fields |]. revert Hinit.
  unfold EpisodeAction.__init__.
  destruct (py_in_tuple action EpisodeAction.VALID_ACTIONS) eqn:Haction;
    cbn [negb]; [| raised].
  apply py_in_tuple_true in Haction.
  destruct (py_eq_str action "play") eqn:Hplay; cbn [negb andb].
  - apply py_eq_str_true in Hplay.
    unfold EpisodeAction.check_timestamp, EpisodeAction.check_position.
    destruct (is_None timestamp) eqn:Hts; cbn [negb mbind result_bind].
    + apply is_None_true in Hts.
      destruct (is_None position) eqn:Hpos; cbn [negb mbind result_bind].
      * apply is_None_true in Hpos. intros _. by split_and!.
      * destruct (position_to_seconds position) as [n|x];
          cbn [try_except mbind result_bind]; [| destruct (isValueError x); raised].
        intros _. split_and!; [done | done | done | by eauto].
    + destruct (iso8601_to_datetime timestamp) as [[dt|]|x];
        cbn [mbind result_bind]; [| raised | raised].
      destruct (is_None position) eqn:Hpos; cbn [negb mbind result_bind].
      * apply is_None_true in Hpos. intros _. split_and!; [done | done | by eauto | done].
      * destruct (position_to_seconds position) as [n|x];
          cbn [try_except mbind result_bind]; [| destruct (isValueError x); raised].
        intros _. split_and!; [done | done | by eauto | by eauto].
  - destruct (is_None position) eqn:Hpos; cbn [negb]; [| raised].
    apply is_None_true in Hpos.
    unfold EpisodeAction.check_timestamp, EpisodeAction.check_position.
    rewrite Hpos. cbn [is_None negb].
    destruct (is_None timestamp) eqn:Hts; cbn [negb mbind result_bind].
    + apply is_None_true in Hts. intros _. by split_and!.
    + destruct (iso8601_to_datetime timestamp) as [[dt|]|x];
        cbn [mbind result_bind]; [| raised | raised].
      intros _. split_and!; [done | done | by eauto | done].
Qed.

Lemma EpisodeAction_init_Ok_witness :
  PStr "play" ∈ PStr <$> EpisodeAction.VALID_ACTIONS
  ∧ (∃ dt, iso8601_to_datetime (Util := StandIn.util)
             (PStr "2009-12-29T19:25:33") = Ok (Some dt))
  ∧ (∃ seconds, position_to_seconds (Util := StandIn.util) (PStr "00:01:30")
                = Ok seconds).
Proof.
  destruct (EpisodeAction_init_Ok (U := StandIn.util) (PStr "feed")
              (PStr "episode") (PStr "play") PNone (PStr "2009-12-29T19:25:33")
              (PStr "00:01:30")
              (EpisodeAction.mk (PStr "feed") (PStr "episode") (PStr "play")
                 PNone (PStr "2009-12-29T19:25:33") (PStr "00:01:30"))
              eq_refl) as (_ & Haction & _ & Hts & Hpos).
  split_and!; [exact Haction | apply Hts; discriminate | apply Hpos; discriminate].
Defined.

(** The timestamp is checked before the position: with a valid action that
    passes the position rule, a timestamp for which the parser returns [None]
    fails construction with the message of line 112, whatever the position
    is. *)
Theorem EpisodeAction_init_timestamp_format {U : Util}
    (podcast episode action device timestamp position : pyval) :
  action ∈ PStr <$> EpisodeAction.VALID_ACTIONS →
  action = PStr "play" ∨ position = PNone →
  timestamp ≠ PNone →
  iso8601_to_datetime timestamp = Ok None →
  EpisodeAction.__init__ podcast episode action device timestamp position
  = Raise (ValueError "Timestamp has to be in ISO 8601 format").
Proof.
  intros Haction Hgate Hts Hparse. unfold EpisodeAction.__init__.
  apply py_in_tuple_true in Haction. rewrite Haction. cbn [negb].
  assert (negb (py_eq_str action "play") && negb (is_None position) = false)
    as ->.
  { destruct Hgate as [-> | ->]; [reflexivity |]. by rewrite andb_false_r. }
  unfold EpisodeAction.check_timestamp.
  apply is_None_false in Hts. rewrite Hts, Hparse. reflexivity.
Qed.

Lemma EpisodeAction_init_timestamp_format_witness :
  EpisodeAction.__init__ (U := StandIn.util) (PStr "feed") (PStr "episode")
    (PStr "play") PNone (PStr "yesterday") (PStr "not a position")
  = Raise (ValueError "Timestamp has to be in ISO 8601 format").
Proof.
  apply (EpisodeAction_init_timestamp_format (U := StandIn.util));
    [apply py_in_tuple_true; reflexivity | left; reflexivity | discriminate
    | reflexivity].
Defined.

(** The position of a play action, once the timestamp has passed: a
    [ValueError] of the parser becomes the [ValueError] of line 119, any
    other exception of the parser is raised as it is, and a parsed position
    lets construction succeed. *)
Theorem EpisodeAction_init_position_format {U : Util}
    (podcast episode device timestamp position : pyval) :
  position ≠ PNone →
  EpisodeAction.check_timestamp timestamp = Ok tt →
  let r := EpisodeAction.__init__ podcast episode (PStr "play") device timestamp
             position in
  (∀ msg, position_to_seconds position = Raise (ValueError msg) →
     r = Raise (ValueError "Position has to be in HH:MM:SS format"))
  ∧ (∀ x, position_to_seconds position = Raise x → isValueError x = false →
       r = Raise x)
  ∧ (∀ seconds, position_to_seconds position = Ok seconds →
       r = Ok (EpisodeAction.mk podcast episode (PStr "play") device timestamp
                 position)).
Proof.
  intros Hpos Hts r. subst r. unfold EpisodeAction.__init__.
  cbn [py_in_tuple existsb EpisodeAction.VALID_ACTIONS py_eq_str String.eqb
         Ascii.eqb Bool.eqb orb negb andb].
  rewrite Hts. cbn [mbind result_bind]. unfold EpisodeAction.check_position.
  apply is_None_false in Hpos. rewrite Hpos. cbn [negb].
  split_and!.
  - intros msg ->. reflexivity.
  - intros x -> Hx. cbn [mbind result_bind try_except]. by rewrite Hx.
  - intros seconds ->. reflexivity.
Qed.

Lemma EpisodeAction_init_position_format_witness :
  EpisodeAction.__init__ (U := StandIn.util) (PStr "feed") (PStr "episode")
    (PStr "play") PNone PNone (PStr "90 seconds")
  = Raise (ValueError "Position has to be in HH:MM:SS format")
  ∧ EpisodeAction.__init__ (U := StandIn.util) (PStr "feed") (PStr "episode")
      (PStr "play") PNone PNone (PStr "00:01:30")
    = Ok (EpisodeAction.mk (PStr "feed") (PStr "episode") (PStr "play") PNone
            PNone (PStr "00:01:30")).
Proof.
  split.
  - destruct (EpisodeAction_init_position_format (U := StandIn.util)
                (PStr "feed") (PStr "episode") PNone PNone (PStr "90 seconds"))
      as (Hbad & _); [discriminate | reflexivity |].
    apply (Hbad "Invalid time format."). reflexivity.
  - destruct (EpisodeAction_init_position_format (U := StandIn.util)
                (PStr "feed") (PStr "episode") PNone PNone (PStr "00:01:30"))
      as (_ & _ & Hgood); [discriminate | reflexivity |].
    apply (Hgood 90). reflexivity.
Defined.

(** ** EpisodeAction: dictionaries *)

(** Reading back the dictionary of any [EpisodeAction], constructed validly
    or not, is constructing one from its six fields again: it succeeds or
    fails as [__init__] does on them. *)
Theorem from_dictionary_of_to_dictionary {U : Util} (e : EpisodeAction.t) :
  EpisodeAction.from_dictionary (PDict (EpisodeAction.to_dictionary e))
  = EpisodeAction.__init__ (EpisodeAction.podcast e) (EpisodeAction.episode e)
      (EpisodeAction.action e) (EpisodeAction.device e)
      (EpisodeAction.timestamp e) (EpisodeAction.position e).
Proof.
  unfold EpisodeAction.from_dictionary.
  pose proof (to_dictionary_mandatory e EpisodeAction.a_podcast) as Hp.
  pose proof (to_dictionary_mandatory e EpisodeAction.a_episode) as Hep.
  pose proof (to_dictionary_mandatory e EpisodeAction.a_action) as Ha.
  pose proof (py_get_to_dictionary e EpisodeAction.a_device) as Hd.
  pose proof (py_get_to_dictionary e EpisodeAction.a_timestamp) as Ht.
  pose proof (py_get_to_dictionary e EpisodeAction.a_position) as Hq.
  cbn [EpisodeAction.name EpisodeAction.getattr] in *.
  unfold py_getitem.
  rewrite Hp, Hep, Ha by in_literal. cbn [mbind result_bind].
  rewrite Hd, Ht, Hq by in_literal. reflexivity.
Qed.

(** [to_dictionary] loses nothing: two actions with the same dictionary are
    the same action. *)
Theorem to_dictionary_injective (e1 e2 : EpisodeAction.t) :
  EpisodeAction.to_dictionary e1 = EpisodeAction.to_dictionary e2 → e1 = e2.
Proof.
  intros Heq.
  assert (∀ a, a ∈ [EpisodeAction.a_podcast; EpisodeAction.a_episode;
                    EpisodeAction.a_action] →
               EpisodeAction.getattr e1 a = EpisodeAction.getattr e2 a) as Hm.
  { intros a Ha.
    pose proof (to_dictionary_mandatory e1 a Ha) as H1.
    pose proof (to_dictionary_mandatory e2 a Ha) as H2.
    rewrite Heq in H1. congruence. }
  assert (∀ a, a ∈ [EpisodeAction.a_device; EpisodeAction.a_timestamp;
                    EpisodeAction.a_position] →
               EpisodeAction.getattr e1 a = EpisodeAction.getattr e2 a) as Ho.
  { intros a Ha.
    pose proof (to_dictionary_optional e1 a Ha) as H1.
    pose proof (to_dictionary_optional e2 a Ha) as H2.
    rewrite Heq in H1. rewrite H1 in H2.
    destruct (is_None (EpisodeAction.getattr e1 a)) eqn:N1,
      (is_None (EpisodeAction.getattr e2 a)) eqn:N2; try congruence.
    apply is_None_true in N1, N2. congruence. }
  pose proof (Hm EpisodeAction.a_podcast ltac:(in_literal)) as Hp.
  pose proof (Hm EpisodeAction.a_episode ltac:(in_literal)) as Hep.
  pose proof (Hm EpisodeAction.a_action ltac:(in_literal)) as Ha.
  pose proof (Ho EpisodeAction.a_device ltac:(in_literal)) as Hd.
  pose proof (Ho EpisodeAction.a_timestamp ltac:(in_literal)) as Ht.
  pose proof (Ho EpisodeAction.a_position ltac:(in_literal)) as Hq.
  destruct e1, e2. simpl in *. congruence.
Qed.

Lemma to_dictionary_injective_witness :
  let e := EpisodeAction.mk (PStr "feed") (PStr "episode") (PStr "new") PNone
             PNone PNone in
  e = e.
Proof.
  intros e. apply (to_dictionary_injective e e). reflexivity.
Defined.

(** The two rules of lines 101-107 hold of whatever [__init__] returns. *)
Lemma init_Ok_rules {U : Util}
    (podcast episode action device timestamp position : pyval)
    (e : EpisodeAction.t) :
  EpisodeAction.__init__ podcast episode action device timestamp position = Ok e →
  action ∈ PStr <$> EpisodeAction.VALID_ACTIONS
  ∧ (position ≠ PNone → action = PStr "play").
Proof.
  unfold EpisodeAction.__init__.
  destruct (py_in_tuple action EpisodeAction.VALID_ACTIONS) eqn:Haction;
    cbn [negb]; [| raised].
  apply py_in_tuple_true in Haction.
  destruct (py_eq_str action "play") eqn:Hplay; cbn [negb andb].
  - apply py_eq_str_true in Hplay. by intros _.
  - destruct (is_None position) eqn:Hpos; cbn [negb]; [| raised].
    apply is_None_true in Hpos. by intros _.
Qed.

(** What [EpisodeAction.from_dictionary] returns comes from the six keys: a
    returned action means the argument is a dictionary that holds the three
    mandatory keys, the action holds their values and, for each optional key,
    its value or [None] when the key is absent; its action is valid and its
    position is [None] unless the action is play. *)
Theorem EpisodeAction_from_dictionary_Ok {U : Util} (d : pyval)
    (e : EpisodeAction.t) :
  EpisodeAction.from_dictionary d = Ok e →
  ∃ m : gmap string pyval,
    d = PDict m
    ∧ m !! "podcast" = Some (EpisodeAction.podcast e)
    ∧ m !! "episode" = Some (EpisodeAction.episode e)
    ∧ m !! "action" = Some (EpisodeAction.action e)
    ∧ EpisodeAction.device e = default PNone (m !! "device")
    ∧ EpisodeAction.timestamp e = default PNone (m !! "timestamp")
    ∧ EpisodeAction.position e = default PNone (m !! "position")
    ∧ EpisodeAction.action e ∈ PStr <$> EpisodeAction.VALID_ACTIONS
    ∧ (EpisodeAction.position e ≠ PNone → EpisodeAction.action e = PStr "play").
Proof.
  unfold EpisodeAction.from_dictionary.
  destruct d as [| | | | | |m]; cbn [py_getitem py_get mbind result_bind];
    try raised.
  destruct (m !! "podcast") as [p|] eqn:Hp; cbn [mbind result_bind]; [| raised].
  destruct (m !! "episode") as [ep|] eqn:Hep; cbn [mbind result_bind]; [| raised].
  destruct (m !! "action") as [a|] eqn:Ha; cbn [mbind result_bind]; [| raised].
  intros Hinit.
  destruct (init_Ok_rules _ _ _ _ _ _ _ Hinit) as [Hvalid Hplay].
  apply init_Ok_fields in Hinit. subst e. exists m.
  cbn [EpisodeAction.podcast EpisodeAction.episode EpisodeAction.action
         EpisodeAction.device EpisodeAction.timestamp EpisodeAction.position].
  by split_and!.
Qed.

Lemma EpisodeAction_from_dictionary_Ok_witness :
  let m : gmap string pyval :=
    <["device" := PStr "phone"]> (<["action" := PStr "download"]>
      (<["episode" := PStr "e"]> (<["podcast" := PStr "p"]> ∅))) in
  let e := EpisodeAction.mk (PStr "p") (PStr "e") (PStr "download")
             (PStr "phone") PNone PNone in
  ∃ m' : gmap string pyval,
    PDict m = PDict m'
    ∧ m' !! "podcast" = Some (EpisodeAction.podcast e)
    ∧ m' !! "episode" = Some (EpisodeAction.episode e)
    ∧ m' !! "action" = Some (EpisodeAction.action e)
    ∧ EpisodeAction.device e = default PNone (m' !! "device")
    ∧ EpisodeAction.timestamp e = default PNone (m' !! "timestamp")
    ∧ EpisodeAction.position e = default PNone (m' !! "position")
    ∧ EpisodeAction.action e ∈ PStr <$> EpisodeAction.VALID_ACTIONS
    ∧ (EpisodeAction.position e ≠ PNone → EpisodeAction.action e = PStr "play").
Proof.
  intros m e.
  apply (EpisodeAction_from_dictionary_Ok (U := StandIn.util) (PDict m) e).
  reflexivity.
Defined.

(** ** MygPodderClient: the uploads *)

Lemma forallb_isinstance_str_false (l : list pyval) :
  (∃ v, v ∈ l ∧ ∀ s, v ≠ PStr s) → forallb isinstance_str l = false.
Proof.
  intros (v & Hv & Hns). induction l as [|x l IH]; [inversion Hv |].
  cbn [forallb]. apply elem_of_cons in Hv as [<- | Hv].
  - destruct v; try reflexivity. by destruct (Hns s).
  - rewrite (IH Hv). apply andb_false_r.
Qed.

Lemma all_str_list (l : list pyval) :
  all_str (PList l) = Ok (forallb isinstance_str l).
Proof. reflexivity. Qed.

Section UploadProperties.
Import MygPodderClient.
Context {L : Locator}.


(** The replies that lines 171-180 (and 232-241) reject; the string of a
    rejected timestamp is one of ASCII characters. *)
Lemma since_of_response_invalid (response : pyval) :
  response = PNone
  ∨ (∃ d, response = PDict d
          ∧ (d !! "timestamp" = None
             ∨ ∃ s, d !! "timestamp" = Some (PStr s) ∧ isascii s = true
                    ∧ int_of_str s = None)) →
  ∃ msg, since_of_response response = Raise (InvalidResponse msg).
Proof.
  intros [-> | (d & -> & [Hts | (s & Hts & _ & Hbad)])];
    unfold since_of_response;
    cbn [is_None].
  - by eexists.
  - rewrite (py_in_absent _ _ Hts). by eexists.
  - rewrite (py_in_present _ _ _ Hts), (py_getitem_present _ _ _ Hts).
    cbn [negb mbind result_bind py_int]. rewrite Hbad. by eexists.
Qed.

Lemma run_update_subscriptions device_id (adds removes : list string) uri
    transport :
  add_remove_subscriptions_uri device_id = Ok uri →
  let data : gmap string pyval :=
    <["remove" := PList (PStr <$> removes)]>
      (<["add" := PList (PStr <$> adds)]> ∅) in
  let m := update_subscriptions device_id (PList (PStr <$> adds))
             (PList (PStr <$> removes)) in
  requests transport m = [POST uri (PDict data)]
  ∧ run transport m
    = (response ← transport (POST uri (PDict data)); since_of_response response).
Proof.
  intros Huri data m. subst data m. unfold update_subscriptions.
  rewrite Huri, !all_str_strings. cbn.
  destruct (transport _); split; reflexivity.
Qed.

Lemma run_upload_episode_actions (actions : list EpisodeAction.t) uri transport :
  upload_episode_actions_uri = Ok uri →
  let data := PList ((fun action => PDict (EpisodeAction.to_dictionary action))
                       <$> actions) in
  requests transport (upload_episode_actions actions) = [POST uri data]
  ∧ run transport (upload_episode_actions actions)
    = (response ← transport (POST uri data); since_of_response response).
Proof.
  intros Huri data. subst data. unfold upload_episode_actions.
  rewrite Huri. cbn. destruct (transport _); split; reflexivity.
Qed.
End UploadProperties.

(** [update_subscriptions] validates its lists before it calls the
    transport: when one of the two lists holds an element that is no string,
    it raises [ValueError] and no request has been sent. *)
Theorem update_subscriptions_validates_first {L : Locator}
    (device_id : pyval) (add_urls remove_urls : list pyval) (uri : string)
    (transport : request → result pyval) :
  add_remove_subscriptions_uri device_id = Ok uri →
  (∃ v, v ∈ add_urls ∧ ∀ s, v ≠ PStr s)
  ∨ (∃ v, v ∈ remove_urls ∧ ∀ s, v ≠ PStr s) →
  let m := MygPodderClient.update_subscriptions device_id (PList add_urls)
             (PList remove_urls) in
  (∃ msg, run transport m = Raise (ValueError msg))
  ∧ requests transport m = [].
Proof.
  intros Huri Hbad m. subst m. unfold MygPodderClient.update_subscriptions.
  rewrite Huri, !all_str_list. cbn [mbind client_bind].
  destruct (forallb isinstance_str add_urls) eqn:Hadd; cbn [negb].
  - destruct Hbad as [Hbad | Hbad].
    + apply forallb_isinstance_str_false in Hbad. congruence.
    + rewrite (forallb_isinstance_str_false _ Hbad). cbn. by eauto.
  - cbn. by eauto.
Qed.

Lemma update_subscriptions_validates_first_witness :
  let m := MygPodderClient.update_subscriptions (L := StandIn.locator)
             (PStr "phone") (PList [PStr "http://a"; PInt 7]) (PList []) in
  (∃ msg, run (StandIn.reply_with PNone) m = Raise (ValueError msg))
  ∧ requests (StandIn.reply_with PNone) m = [].
Proof.
  apply (update_subscriptions_validates_first (L := StandIn.locator)
           (PStr "phone") [PStr "http://a"; PInt 7] []
           "/api/1/subscriptions/phone.json" (StandIn.reply_with PNone));
    [reflexivity |].
  left. exists (PInt 7). split; [in_literal | discriminate].
Defined.



(** With two lists of strings, [update_subscriptions] raises
    [InvalidResponse] on a null reply, on a dictionary without a timestamp
    and on a timestamp that is a string of ASCII characters [int()]
    rejects. *)
Theorem update_subscriptions_invalid {L : Locator}
    (device_id : pyval) (add_urls remove_urls : list string) (uri : string)
    (transport : request → result pyval) (response : pyval) :
  add_remove_subscriptions_uri device_id = Ok uri →
  let data : gmap string pyval :=
    <["remove" := PList (PStr <$> remove_urls)]>
      (<["add" := PList (PStr <$> add_urls)]> ∅) in
  transport (POST uri (PDict data)) = Ok response →
  response = PNone
  ∨ (∃ d, response = PDict d
          ∧ (d !! "timestamp" = None
             ∨ ∃ s, d !! "timestamp" = Some (PStr s) ∧ isascii s = true
                    ∧ int_of_str s = None)) →
  ∃ msg, run transport
           (MygPodderClient.update_subscriptions device_id
              (PList (PStr <$> add_urls)) (PList (PStr <$> remove_urls)))
         = Raise (InvalidResponse msg).
Proof.
  intros Huri data Hreply Hbad.
  destruct (run_update_subscriptions device_id add_urls remove_urls uri
              transport Huri) as [_ Hrun].
  subst data. rewrite Hrun, Hreply.
  apply (since_of_response_invalid response Hbad).
Qed.

Lemma update_subscriptions_invalid_witness :
  ∃ msg, run (StandIn.reply_with (PDict ∅))
           (MygPodderClient.update_subscriptions (L := StandIn.locator)
              (PStr "phone") (PList [PStr "http://a"]) (PList []))
         = Raise (InvalidResponse msg).
Proof.
  apply (update_subscriptions_invalid (L := StandIn.locator) (PStr "phone")
           ["http://a"] [] "/api/1/subscriptions/phone.json"
           (StandIn.reply_with (PDict ∅)) (PDict ∅)); [reflexivity .. |].
  right. exists ∅. split; [reflexivity | left; reflexivity].
Defined.



(** [upload_episode_actions] raises [InvalidResponse] on a null reply, on a
    dictionary without a timestamp and on a timestamp that is a string of
    ASCII characters [int()] rejects. *)
Theorem upload_episode_actions_invalid {L : Locator}
    (actions : list EpisodeAction.t) (uri : string)
    (transport : request → result pyval) (response : pyval) :
  upload_episode_actions_uri = Ok uri →
  transport (POST uri (PList ((fun action =>
                                 PDict (EpisodeAction.to_dictionary action))
                                <$> actions))) = Ok response →
  response = PNone
  ∨ (∃ d, response = PDict d
          ∧ (d !! "timestamp" = None
             ∨ ∃ s, d !! "timestamp" = Some (PStr s) ∧ isascii s = true
                    ∧ int_of_str s = None)) →
  ∃ msg, run transport (MygPodderClient.upload_episode_actions actions)
         = Raise (InvalidResponse msg).
Proof.
  intros Huri Hreply Hbad.
  destruct (run_upload_episode_actions actions uri transport Huri) as [_ Hrun].
  rewrite Hrun, Hreply. apply (since_of_response_invalid response Hbad).
Qed.

Lemma upload_episode_actions_invalid_witness :
  ∃ msg, run (StandIn.reply_with
                (PDict (<["timestamp" := PStr "now"]> ∅)))
           (MygPodderClient.upload_episode_actions (L := StandIn.locator) [])
         = Raise (InvalidResponse msg).
Proof.
  apply (upload_episode_actions_invalid (L := StandIn.locator) []
           "/api/1/episodes.json"
           (StandIn.reply_with (PDict (<["timestamp" := PStr "now"]> ∅)))
           (PDict (<["timestamp" := PStr "now"]> ∅))); [reflexivity .. |].
  right. exists (<["timestamp" := PStr "now"]> ∅).
  split; [reflexivity |]. right. exists "now". split_and!; reflexivity.
Defined.

(** ** MygPodderClient: pull_subscriptions *)

(** With the three keys present and lists under add and remove,
    [pull_subscriptions] raises [InvalidResponse] when one of the two lists
    holds an element that is no string, and when both hold strings only and
    the timestamp is a string of ASCII characters [int()] rejects. *)
Theorem pull_subscriptions_invalid_values {L : Locator}
    (device_id since : pyval) (uri : string)
    (transport : request → result pyval) (d : gmap string pyval)
    (adds removes : list pyval) (ts : pyval) :
  subscription_updates_uri device_id since = Ok uri →
  transport (GET uri) = Ok (PDict d) →
  d !! "add" = Some (PList adds) →
  d !! "remove" = Some (PList removes) →
  d !! "timestamp" = Some ts →
  (∃ v, v ∈ adds ∧ ∀ s, v ≠ PStr s)
  ∨ (∃ v, v ∈ removes ∧ ∀ s, v ≠ PStr s)
  ∨ (∃ s, ts = PStr s ∧ isascii s = true ∧ int_of_str s = None) →
  ∃ msg, run transport (MygPodderClient.pull_subscriptions device_id since)
         = Raise (InvalidResponse msg).
Proof.
  intros Huri Hreply Ha Hr Hts Hbad.
  rewrite (run_pull_subscriptions _ _ _ _ _ Huri Hreply).
  unfold MygPodderClient.subscription_changes. cbn [is_None].
  rewrite (py_in_present _ _ _ Ha), (py_in_present _ _ _ Hr),
    (py_in_present _ _ _ Hts).
  rewrite (py_getitem_present _ _ _ Ha), (py_getitem_present _ _ _ Hr),
    (py_getitem_present _ _ _ Hts).
  cbn [negb mbind result_bind]. rewrite !all_str_list.
  destruct (forallb isinstance_str adds) eqn:Hadds; cbn [negb]; [| by eexists].
  destruct (forallb isinstance_str removes) eqn:Hremoves; cbn [negb];
    [| by eexists].
  destruct Hbad as [Hbad | [Hbad | (s & -> & _ & Hbad)]].
  - apply forallb_isinstance_str_false in Hbad. congruence.
  - apply forallb_isinstance_str_false in Hbad. congruence.
  - cbn [py_int]. rewrite Hbad. by eexists.
Qed.

Lemma pull_subscriptions_invalid_values_witness :
  let reply : gmap string pyval :=
    <["timestamp" := PInt 3]> (<["remove" := PList [PInt 1]]>
      (<["add" := PList [PStr "http://a"]]> ∅)) in
  ∃ msg, run (StandIn.reply_with (PDict reply))
           (MygPodderClient.pull_subscriptions (L := StandIn.locator)
              (PStr "phone") PNone)
         = Raise (InvalidResponse msg).
Proof.
  intros reply.
  apply (pull_subscriptions_invalid_values (L := StandIn.locator) (PStr "phone")
           PNone "/api/1/subscriptions/phone.json"
           (StandIn.reply_with (PDict reply)) reply [PStr "http://a"] [PInt 1]
           (PInt 3)); [reflexivity .. |].
  right. left. exists (PInt 1). split; [in_literal | discriminate].
Defined.

(** What [pull_subscriptions] returns is what the reply holds: the reply is
    a dictionary, the [add] and [remove] of the result are the values under
    those keys, all their elements are strings, and [since] is the integer
    of the value under timestamp. *)
Theorem pull_subscriptions_Ok {L : Locator}
    (device_id since : pyval) (uri : string)
    (transport : request → result pyval) (data : pyval)
    (changes : SubscriptionChanges.t) :
  subscription_updates_uri device_id since = Ok uri →
  transport (GET uri) = Ok data →
  run transport (MygPodderClient.pull_subscriptions device_id since) = Ok changes →
  ∃ (d : gmap string pyval) (ts : pyval),
    data = PDict d
    ∧ d !! "add" = Some (SubscriptionChanges.add changes)
    ∧ d !! "remove" = Some (SubscriptionChanges.remove changes)
    ∧ d !! "timestamp" = Some ts
    ∧ py_int ts = Ok (SubscriptionChanges.since changes)
    ∧ all_str (SubscriptionChanges.add changes) = Ok true
    ∧ all_str (SubscriptionChanges.remove changes) = Ok true.
Proof.
  intros Huri Hreply.
  rewrite (run_pull_subscriptions _ _ _ _ _ Huri Hreply).
  unfold MygPodderClient.subscription_changes.
  destruct data as [| | | |s|l|d]; cbn [is_None]; try raised.
  - cbn [py_in py_getitem mbind result_bind].
    destruct (negb (is_substring "add" s)); [raised |].
    destruct (negb (is_substring "remove" s)); [raised |].
    destruct (negb (is_substring "timestamp" s)); raised.
  - cbn [py_in py_getitem mbind result_bind].
    destruct (negb (existsb _ l)); [raised |].
    destruct (negb (existsb _ l)); [raised |].
    destruct (negb (existsb _ l)); raised.
  - destruct (d !! "add") as [a|] eqn:Ha;
      [rewrite (py_in_present _ _ _ Ha)
      | rewrite (py_in_absent _ _ Ha); raised].
    destruct (d !! "remove") as [r|] eqn:Hr;
      [rewrite (py_in_present _ _ _ Hr)
      | rewrite (py_in_absent _ _ Hr); raised].
    destruct (d !! "timestamp") as [ts|] eqn:Hts;
      [rewrite (py_in_present _ _ _ Hts)
      | rewrite (py_in_absent _ _ Hts); raised].
    rewrite (py_getitem_present _ _ _ Ha), (py_getitem_present _ _ _ Hr),
      (py_getitem_present _ _ _ Hts).
    cbn [negb mbind result_bind].
    destruct (all_str a) as [[|]|x] eqn:Hall_a; cbn [negb mbind result_bind];
      [| raised | raised].
    destruct (all_str r) as [[|]|x] eqn:Hall_r; cbn [negb mbind result_bind];
      [| raised | raised].
    destruct (py_int ts) as [n|x] eqn:Hn; cbn [try_except mbind result_bind];
      [| destruct (isValueError x); raised].
    intros [= <-]. exists d, ts. by split_and!.
Qed.

Lemma pull_subscriptions_Ok_witness :
  let reply : gmap string pyval :=
    <["timestamp" := PInt 3]> (<["remove" := PList []]>
      (<["add" := PList [PStr "http://a"]]> ∅)) in
  ∃ (d : gmap string pyval) (ts : pyval),
    PDict reply = PDict d
    ∧ d !! "add" = Some (PList [PStr "http://a"])
    ∧ d !! "remove" = Some (PList [])
    ∧ d !! "timestamp" = Some ts
    ∧ py_int ts = Ok 3
    ∧ all_str (PList [PStr "http://a"]) = Ok true
    ∧ all_str (PList []) = Ok true.
Proof.
  intros reply.
  apply (pull_subscriptions_Ok (L := StandIn.locator) (PStr "phone") PNone
           "/api/1/subscriptions/phone.json" (StandIn.reply_with (PDict reply))
           (PDict reply)
           (SubscriptionChanges.mk (PList [PStr "http://a"]) (PList []) 3));
    reflexivity.
Defined.

(** ** MygPodderClient: download_episode_actions *)

Section DownloadResults.
Import MygPodderClient.
Context {U : Util}.

(** The interpretation of a reply with both keys and a timestamp [int()]
    accepts comes down to the conversion of its action list. *)
Lemma episode_action_changes_conversion (d : gmap string pyval)
    (dicts ts : pyval) (n : Z) :
  d !! "actions" = Some dicts →
  d !! "timestamp" = Some ts →
  py_int ts = Ok n →
  episode_action_changes (PDict d)
  = (actions ← try_except
                 (ds ← py_iter dicts;
                  comprehension EpisodeAction.from_dictionary ds)
                 isKeyError
                 (Raise (InvalidResponse "Missing keys in action list response"));
     Ok (EpisodeActionChanges.mk actions n)).
Proof.
  intros Hactions Hts Hn. unfold episode_action_changes. cbn [is_None].
  rewrite (py_in_present _ _ _ Hactions), (py_in_present _ _ _ Hts),
    (py_getitem_present _ _ _ Hactions), (py_getitem_present _ _ _ Hts).
  cbn [negb mbind result_bind]. rewrite Hn. reflexivity.
Qed.

(** The dictionaries of validly constructed actions convert back to these
    actions. *)
Lemma comprehension_to_dictionary (actions : list EpisodeAction.t) :
  Forall (fun e =>
            EpisodeAction.__init__ (EpisodeAction.podcast e)
              (EpisodeAction.episode e) (EpisodeAction.action e)
              (EpisodeAction.device e) (EpisodeAction.timestamp e)
              (EpisodeAction.position e) = Ok e) actions →
  comprehension EpisodeAction.from_dictionary
    ((fun action => PDict (EpisodeAction.to_dictionary action)) <$> actions)
  = Ok actions.
Proof.
  induction 1 as [|e actions He _ IH]; [reflexivity |].
  rewrite fmap_cons. cbn [comprehension].
  assert (EpisodeAction.from_dictionary (PDict (EpisodeAction.to_dictionary e))
          = Ok e) as ->.
  { unfold EpisodeAction.from_dictionary.
    pose proof (to_dictionary_mandatory e EpisodeAction.a_podcast) as Hp.
    pose proof (to_dictionary_mandatory e EpisodeAction.a_episode) as Hep.
    pose proof (to_dictionary_mandatory e EpisodeAction.a_action) as Ha.
    pose proof (py_get_to_dictionary e EpisodeAction.a_device) as Hd.
    pose proof (py_get_to_dictionary e EpisodeAction.a_timestamp) as Ht.
    pose proof (py_get_to_dictionary e EpisodeAction.a_position) as Hq.
    cbn [EpisodeAction.name EpisodeAction.getattr] in *.
    unfold py_getitem.
    rewrite Hp, Hep, Ha by in_literal. cbn [mbind result_bind].
    rewrite Hd, Ht, Hq by in_literal. exact He. }
  cbn [mbind result_bind]. rewrite IH. reflexivity.
Qed.
End DownloadResults.

(** When the reply holds a timestamp [int()] accepts and an action list all
    of whose elements convert, [download_episode_actions] returns the
    converted actions, one per element and in the order of the list, with
    the integer of the timestamp. *)
Theorem download_episode_actions_returns {U : Util} {L : Locator}
    (since podcast device_id : pyval) (uri : string)
    (transport : request → result pyval) (d : gmap string pyval)
    (dicts : list pyval) (ts : pyval) (n : Z) (actions : list EpisodeAction.t) :
  download_episode_actions_uri since podcast device_id = Ok uri →
  transport (GET uri) = Ok (PDict d) →
  d !! "actions" = Some (PList dicts) →
  d !! "timestamp" = Some ts →
  py_int ts = Ok n →
  comprehension EpisodeAction.from_dictionary dicts = Ok actions →
  run transport
    (MygPodderClient.download_episode_actions since podcast device_id)
  = Ok (EpisodeActionChanges.mk actions n)
  ∧ length actions = length dicts.
Proof.
  intros Huri Hreply Hactions Hts Hn Hconv.
  rewrite (run_download_episode_actions _ _ _ _ _ _ Huri Hreply).
  rewrite (episode_action_changes_conversion d _ ts n Hactions Hts Hn).
  cbn [py_iter mbind result_bind]. rewrite Hconv.
  split; [reflexivity | by apply comprehension_length in Hconv].
Qed.

Lemma download_episode_actions_returns_witness :
  let first : gmap string pyval :=
    <["action" := PStr "new"]> (<["episode" := PStr "e1"]>
      (<["podcast" := PStr "p"]> ∅)) in
  let second : gmap string pyval :=
    <["position" := PStr "00:10:00"]> (<["action" := PStr "play"]>
      (<["episode" := PStr "e2"]> (<["podcast" := PStr "p"]> ∅))) in
  let reply : gmap string pyval :=
    <["timestamp" := PStr "77"]>
      (<["actions" := PList [PDict first; PDict second]]> ∅) in
  run (StandIn.reply_with (PDict reply))
    (MygPodderClient.download_episode_actions (U := StandIn.util)
       (L := StandIn.locator) PNone PNone PNone)
  = Ok (EpisodeActionChanges.mk
          [EpisodeAction.mk (PStr "p") (PStr "e1") (PStr "new") PNone PNone PNone;
           EpisodeAction.mk (PStr "p") (PStr "e2") (PStr "play") PNone PNone
             (PStr "00:10:00")] 77).
Proof.
  intros first second reply.
  apply (download_episode_actions_returns (U := StandIn.util)
           (L := StandIn.locator) PNone PNone PNone "/api/1/episodes.json"
           (StandIn.reply_with (PDict reply)) reply [PDict first; PDict second]
           (PStr "77") 77); reflexivity.
Defined.

(** An exception of the conversion that is no [KeyError] is raised by
    [download_episode_actions] as it is: the [ValueError] of an action
    dictionary with an invalid action, or the [TypeError] of an element that
    is no dictionary, is not turned into [InvalidResponse]. *)
Theorem download_episode_actions_propagates {U : Util} {L : Locator}
    (since podcast device_id : pyval) (uri : string)
    (transport : request → result pyval) (d : gmap string pyval)
    (dicts : list pyval) (ts : pyval) (n : Z) (x : exn) :
  download_episode_actions_uri since podcast device_id = Ok uri →
  transport (GET uri) = Ok (PDict d) →
  d !! "actions" = Some (PList dicts) →
  d !! "timestamp" = Some ts →
  py_int ts = Ok n →
  comprehension EpisodeAction.from_dictionary dicts = Raise x →
  isKeyError x = false →
  run transport
    (MygPodderClient.download_episode_actions since podcast device_id)
  = Raise x.
Proof.
  intros Huri Hreply Hactions Hts Hn Hconv Hx.
  rewrite (run_download_episode_actions _ _ _ _ _ _ Huri Hreply).
  rewrite (episode_action_changes_conversion d _ ts n Hactions Hts Hn).
  cbn [py_iter mbind result_bind]. rewrite Hconv.
  cbn [try_except]. rewrite Hx. reflexivity.
Qed.

Lemma download_episode_actions_propagates_witness :
  let action : gmap string pyval :=
    <["position" := PStr "00:10:00"]> (<["action" := PStr "download"]>
      (<["episode" := PStr "e"]> (<["podcast" := PStr "p"]> ∅))) in
  let reply : gmap string pyval :=
    <["timestamp" := PInt 5]> (<["actions" := PList [PDict action]]> ∅) in
  run (StandIn.reply_with (PDict reply))
    (MygPodderClient.download_episode_actions (U := StandIn.util)
       (L := StandIn.locator) PNone PNone PNone)
  = Raise (ValueError EpisodeAction.POSITION_ONLY_FOR_PLAY).
Proof.
  intros action reply.
  apply (download_episode_actions_propagates (U := StandIn.util)
           (L := StandIn.locator) PNone PNone PNone "/api/1/episodes.json"
           (StandIn.reply_with (PDict reply)) reply [PDict action] (PInt 5) 5);
    reflexivity.
Defined.

(** What was uploaded can be downloaded: when a reply holds, under actions,
    the very list that [upload_episode_actions] posts for validly
    constructed actions, [download_episode_actions] returns these actions,
    in their order. *)
Theorem upload_then_download {U : Util} {L : Locator}
    (actions : list EpisodeAction.t) (since podcast device_id : pyval)
    (upload_uri download_uri : string) (transport : request → result pyval)
    (posted : pyval) (d : gmap string pyval) (ts : pyval) (n : Z) :
  Forall (fun e =>
            EpisodeAction.__init__ (EpisodeAction.podcast e)
              (EpisodeAction.episode e) (EpisodeAction.action e)
              (EpisodeAction.device e) (EpisodeAction.timestamp e)
              (EpisodeAction.position e) = Ok e) actions →
  upload_episode_actions_uri = Ok upload_uri →
  requests transport (MygPodderClient.upload_episode_actions actions)
  = [POST upload_uri posted] →
  download_episode_actions_uri since podcast device_id = Ok download_uri →
  transport (GET download_uri) = Ok (PDict d) →
  d !! "actions" = Some posted →
  d !! "timestamp" = Some ts →
  py_int ts = Ok n →
  run transport
    (MygPodderClient.download_episode_actions since podcast device_id)
  = Ok (EpisodeActionChanges.mk actions n).
Proof.
  intros Hvalid Hup Hposted Hdown Hreply Hactions Hts Hn.
  destruct (run_upload_episode_actions actions upload_uri transport Hup)
    as [Hrequests _].
  rewrite Hrequests in Hposted. injection Hposted as <-.
  rewrite (run_download_episode_actions _ _ _ _ _ _ Hdown Hreply).
  rewrite (episode_action_changes_conversion d _ ts n Hactions Hts Hn).
  cbn [py_iter mbind result_bind].
  rewrite (comprehension_to_dictionary actions Hvalid). reflexivity.
Qed.

Lemma upload_then_download_witness :
  let played := EpisodeAction.mk (PStr "p") (PStr "e") (PStr "play")
                  (PStr "phone") (PStr "2009-12-29T19:25:33") (PStr "00:01:30") in
  let added := EpisodeAction.mk (PStr "p") (PStr "e2") (PStr "new") PNone PNone
                 PNone in
  let posted := PList [PDict (EpisodeAction.to_dictionary played);
                       PDict (EpisodeAction.to_dictionary added)] in
  let reply : gmap string pyval :=
    <["timestamp" := PInt 8]> (<["actions" := posted]> ∅) in
  run (StandIn.reply_with (PDict reply))
    (MygPodderClient.download_episode_actions (U := StandIn.util)
       (L := StandIn.locator) PNone PNone PNone)
  = Ok (EpisodeActionChanges.mk [played; added] 8).
Proof.
  intros played added posted reply.
  apply (upload_then_download (U := StandIn.util) (L := StandIn.locator)
           [played; added] PNone PNone PNone "/api/1/episodes.json"
           "/api/1/episodes.json" (StandIn.reply_with (PDict reply)) posted
           reply (PInt 8) 8); try reflexivity.
  repeat constructor.
Defined.

(** ** MygPodderClient: get_devices *)

Section DeviceListProperties.
Import MygPodderClient.
Context {L : Locator}.

Lemma run_get_devices uri transport dicts :
  device_list_uri = Ok uri →
  transport (GET uri) = Ok dicts →
  run transport get_devices
  = (if is_None dicts then Raise (InvalidResponse "No response received")
     else try_except
            (ds ← py_iter dicts; comprehension PodcastDevice.from_dictionary ds)
            isKeyError
            (Raise (InvalidResponse "Missing keys in device list response"))).
Proof.
  intros Huri Hreply. unfold get_devices. rewrite Huri. cbn.
  rewrite Hreply. destruct (is_None dicts); reflexivity.
Qed.

(** On a dictionary, [PodcastDevice.from_dictionary] returns a device or
    raises [KeyError] or [ValueError]. *)
Lemma PodcastDevice_from_dictionary_outcomes (m : gmap string pyval) :
  (∃ device, PodcastDevice.from_dictionary (PDict m) = Ok device)
  ∨ (∃ k, PodcastDevice.from_dictionary (PDict m) = Raise (KeyError k))
  ∨ (∃ msg, PodcastDevice.from_dictionary (PDict m) = Raise (ValueError msg)).
Proof.
  unfold PodcastDevice.from_dictionary, py_getitem.
  destruct (m !! "id"); cbn [mbind result_bind]; [| by eauto].
  destruct (m !! "caption"); cbn [mbind result_bind]; [| by eauto].
  destruct (m !! "type") as [t|]; cbn [mbind result_bind]; [| by eauto].
  destruct (m !! "subscriptions") as [s|]; cbn [mbind result_bind];
    [| by eauto].
  unfold PodcastDevice.__init__.
  destruct (negb (py_in_tuple t PodcastDevice.VALID_TYPES)); [by eauto |].
  destruct (py_int s); cbn [try_except anyException mbind result_bind];
    by eauto.
Qed.

Lemma PodcastDevice_from_dictionary_KeyError (m : gmap string pyval) :
  (∃ k, k ∈ ["id"; "caption"; "type"; "subscriptions"] ∧ m !! k = None) →
  ∃ k, PodcastDevice.from_dictionary (PDict m) = Raise (KeyError k).
Proof.
  intros (k & Hk & Hnone). unfold PodcastDevice.from_dictionary, py_getitem.
  destruct (m !! "id") eqn:Hi; [| by eexists].
  destruct (m !! "caption") eqn:Hc; [| by eexists].
  destruct (m !! "type") eqn:Ht; [| by eexists].
  destruct (m !! "subscriptions") eqn:Hs; [| by eexists].
  repeat (apply elem_of_cons in Hk as [-> | Hk]; [congruence |]).
  inversion Hk.
Qed.

(** Over a list of dictionaries the conversion returns the devices or
    raises [KeyError] or [ValueError]. *)
Lemma comprehension_devices_outcomes (ds : list pyval) :
  Forall (fun v => ∃ m, v = PDict m) ds →
  (∃ devices, comprehension PodcastDevice.from_dictionary ds = Ok devices)
  ∨ (∃ k, comprehension PodcastDevice.from_dictionary ds = Raise (KeyError k))
  ∨ (∃ msg, comprehension PodcastDevice.from_dictionary ds
            = Raise (ValueError msg)).
Proof.
  induction 1 as [|v ds [m ->] _ IH]; [by left; eexists |].
  cbn [comprehension].
  destruct (PodcastDevice_from_dictionary_outcomes m)
    as [[device ->] | [[k ->] | [msg ->]]]; cbn [mbind result_bind];
    [| by eauto | by eauto].
  destruct IH as [[devices ->] | [[k ->] | [msg ->]]]; cbn [mbind result_bind];
    by eauto.
Qed.
End DeviceListProperties.



(** [get_devices] raises [InvalidResponse] on a null reply, and on a list
    that holds a dictionary without one of the keys id, caption, type,
    subscriptions, all elements before it having been converted. *)
Theorem get_devices_invalid {L : Locator} (uri : string)
    (transport : request → result pyval) (dicts : pyval) :
  device_list_uri = Ok uri →
  transport (GET uri) = Ok dicts →
  dicts = PNone
  ∨ (∃ before m after converted,
       dicts = PList (before ++ PDict m :: after)
       ∧ comprehension PodcastDevice.from_dictionary before = Ok converted
       ∧ ∃ k, k ∈ ["id"; "caption"; "type"; "subscriptions"] ∧ m !! k = None) →
  ∃ msg, run transport MygPodderClient.get_devices = Raise (InvalidResponse msg).
Proof.
  intros Huri Hreply Hbad. rewrite (run_get_devices _ _ _ Huri Hreply).
  destruct Hbad as [-> | (before & m & after & converted & -> & Hbefore & Hkey)].
  - by eexists.
  - destruct (PodcastDevice_from_dictionary_KeyError m Hkey) as [k Hk].
    cbn [is_None py_iter mbind result_bind].
    rewrite (comprehension_first_Raise _ _ _ _ _ _ Hbefore Hk). by eexists.
Qed.

Lemma get_devices_invalid_witness :
  let phone : gmap string pyval :=
    <["subscriptions" := PInt 2]> (<["type" := PStr "mobile"]>
      (<["caption" := PStr "Phone"]> (<["id" := PStr "d1"]> ∅))) in
  let untyped : gmap string pyval := delete "type" phone in
  (∃ msg, run (StandIn.reply_with PNone)
            (MygPodderClient.get_devices (L := StandIn.locator))
          = Raise (InvalidResponse msg))
  ∧ (∃ msg, run (StandIn.reply_with (PList [PDict phone; PDict untyped]))
              (MygPodderClient.get_devices (L := StandIn.locator))
            = Raise (InvalidResponse msg)).
Proof.
  intros phone untyped. split.
  - apply (get_devices_invalid (L := StandIn.locator) "/api/1/devices.json"
             (StandIn.reply_with PNone) PNone); [reflexivity .. |].
    left. reflexivity.
  - apply (get_devices_invalid (L := StandIn.locator) "/api/1/devices.json"
             (StandIn.reply_with (PList [PDict phone; PDict untyped]))
             (PList [PDict phone; PDict untyped])); [reflexivity .. |].
    right. exists [PDict phone], untyped, [],
      [PodcastDevice.mk (PStr "d1") (PStr "Phone") (PStr "mobile") 2].
    split_and!; [reflexivity .. |].
    exists "type". split; [in_literal | reflexivity].
Defined.

(** On a reply that is a list of dictionaries, [get_devices] returns the
    devices or raises [InvalidResponse] or [ValueError], nothing else. The
    handler of line 315 catches [KeyError] only: when the first dictionary
    that does not convert holds all four keys, the [ValueError] of
    [PodcastDevice.__init__] is what [get_devices] raises, with the message
    of line 65 for an invalid type and the message of line 71 for a
    subscriptions value that [int()] does not accept (a string among them
    being one of ASCII characters). *)
Theorem get_devices_outcomes {L : Locator} (uri : string)
    (transport : request → result pyval) (dicts : list pyval) :
  device_list_uri = Ok uri →
  transport (GET uri) = Ok (PList dicts) →
  Forall (fun v => ∃ m, v = PDict m) dicts →
  let r := run transport MygPodderClient.get_devices in
  ((∃ devices, r = Ok devices)
   ∨ (∃ msg, r = Raise (InvalidResponse msg))
   ∨ (∃ msg, r = Raise (ValueError msg)))
  ∧ (∀ before m after converted device_id caption type subscriptions,
       dicts = (before ++ PDict m :: after)%list →
       comprehension PodcastDevice.from_dictionary before = Ok converted →
       m !! "id" = Some device_id →
       m !! "caption" = Some caption →
       m !! "type" = Some type →
       m !! "subscriptions" = Some subscriptions →
       (type ∉ PStr <$> PodcastDevice.VALID_TYPES →
          r = Raise (ValueError "Invalid device type (see VALID_TYPES)"))
       ∧ (type ∈ PStr <$> PodcastDevice.VALID_TYPES →
          (∀ s, subscriptions = PStr s → isascii s = true) →
          ∀ e, py_int subscriptions = Raise e →
            r = Raise (ValueError "Subscription must be a numeric value"))).
Proof.
  intros Huri Hreply Hdicts r. subst r.
  rewrite (run_get_devices _ _ _ Huri Hreply).
  cbn [is_None py_iter mbind result_bind]. split.
  - destruct (comprehension_devices_outcomes dicts Hdicts)
      as [[devices ->] | [[k ->] | [msg ->]]]; cbn [try_except isKeyError];
      by eauto.
  - intros before m after converted device_id caption type subscriptions
      -> Hbefore Hi Hc Ht Hs.
    pose proof (from_dictionary_present m _ _ _ _ Hi Hc Ht Hs) as Hm.
    unfold PodcastDevice.__init__ in Hm. split.
    + intros Htype. apply py_in_tuple_false in Htype.
      rewrite Htype in Hm. cbn [negb] in Hm.
      rewrite (comprehension_first_Raise _ _ _ _ _ _ Hbefore Hm). reflexivity.
    + intros Htype _ e He. apply py_in_tuple_true in Htype.
      rewrite Htype, He in Hm.
      cbn [negb try_except anyException mbind result_bind] in Hm.
      rewrite (comprehension_first_Raise _ _ _ _ _ _ Hbefore Hm). reflexivity.
Qed.

Lemma get_devices_outcomes_witness :
  let phone : gmap string pyval :=
    <["subscriptions" := PInt 2]> (<["type" := PStr "mobile"]>
      (<["caption" := PStr "Phone"]> (<["id" := PStr "d1"]> ∅))) in
  let tablet : gmap string pyval := <["type" := PStr "tablet"]> phone in
  let unknown : gmap string pyval := <["subscriptions" := PNone]> phone in
  run (StandIn.reply_with (PList [PDict phone; PDict tablet]))
    (MygPodderClient.get_devices (L := StandIn.locator))
  = Raise (ValueError "Invalid device type (see VALID_TYPES)")
  ∧ run (StandIn.reply_with (PList [PDict unknown; PDict phone]))
      (MygPodderClient.get_devices (L := StandIn.locator))
    = Raise (ValueError "Subscription must be a numeric value").
Proof.
  intros phone tablet unknown. split.
  - assert (Forall (fun v => ∃ m, v = PDict m) [PDict phone; PDict tablet])
      as Hall by (repeat constructor; by eexists).
    destruct (get_devices_outcomes (L := StandIn.locator) "/api/1/devices.json"
                (StandIn.reply_with (PList [PDict phone; PDict tablet]))
                [PDict phone; PDict tablet] eq_refl eq_refl Hall) as [_ Hfirst].
    destruct (Hfirst [PDict phone] tablet []
                [PodcastDevice.mk (PStr "d1") (PStr "Phone") (PStr "mobile") 2]
                (PStr "d1") (PStr "Phone") (PStr "tablet") (PInt 2)
                eq_refl eq_refl eq_refl eq_refl eq_refl eq_refl)
      as [Htype _].
    apply Htype. apply py_in_tuple_false. reflexivity.
  - assert (Forall (fun v => ∃ m, v = PDict m) [PDict unknown; PDict phone])
      as Hall by (repeat constructor; by eexists).
    destruct (get_devices_outcomes (L := StandIn.locator) "/api/1/devices.json"
                (StandIn.reply_with (PList [PDict unknown; PDict phone]))
                [PDict unknown; PDict phone] eq_refl eq_refl Hall) as [_ Hfirst].
    destruct (Hfirst [] unknown [PDict phone] [] (PStr "d1") (PStr "Phone")
                (PStr "mobile") PNone eq_refl eq_refl eq_refl eq_refl eq_refl
                eq_refl) as [_ Hnumber].
    apply (Hnumber ltac:(apply py_in_tuple_true; reflexivity)
             ltac:(discriminate) TypeError eq_refl).
Defined.

(** ** MygPodderClient: the collaborators *)

(** Every method asks the locator first: when the locator raises, the method
    raises the same exception and no request has been sent (for
    [update_subscriptions] even when its lists are not lists of strings). *)
Theorem locator_failure_sends_nothing {U : Util} {L : Locator}
    (transport : request → result pyval) (x : exn) :
  (∀ device_id add_urls remove_urls,
     add_remove_subscriptions_uri device_id = Raise x →
     let m := MygPodderClient.update_subscriptions device_id add_urls
                remove_urls in
     run transport m = Raise x ∧ requests transport m = [])
  ∧ (∀ device_id since,
       subscription_updates_uri device_id since = Raise x →
       let m := MygPodderClient.pull_subscriptions device_id since in
       run transport m = Raise x ∧ requests transport m = [])
  ∧ (∀ actions,
       upload_episode_actions_uri = Raise x →
       let m := MygPodderClient.upload_episode_actions actions in
       run transport m = Raise x ∧ requests transport m = [])
  ∧ (∀ since podcast device_id,
       download_episode_actions_uri since podcast device_id = Raise x →
       let m := MygPodderClient.download_episode_actions since podcast
                  device_id in
       run transport m = Raise x ∧ requests transport m = [])
  ∧ (∀ device_id caption type,
       device_settings_uri device_id = Raise x →
       let m := MygPodderClient.update_device_settings device_id caption type in
       run transport m = Raise x ∧ requests transport m = [])
  ∧ (device_list_uri = Raise x →
     run transport MygPodderClient.get_devices = Raise x
     ∧ requests transport MygPodderClient.get_devices = []).
Proof.
  split_and!.
  - intros device_id add_urls remove_urls Huri m. subst m.
    unfold MygPodderClient.update_subscriptions. rewrite Huri. by split.
  - intros device_id since Huri m. subst m.
    unfold MygPodderClient.pull_subscriptions. rewrite Huri. by split.
  - intros actions Huri m. subst m.
    unfold MygPodderClient.upload_episode_actions. rewrite Huri. by split.
  - intros since podcast device_id Huri m. subst m.
    unfold MygPodderClient.download_episode_actions. rewrite Huri. by split.
  - intros device_id caption type Huri m. subst m.
    unfold MygPodderClient.update_device_settings. rewrite Huri. by split.
  - intros Huri. unfold MygPodderClient.get_devices. rewrite Huri. by split.
Qed.

Lemma locator_failure_sends_nothing_witness :
  let x := OtherError "BadDevice" in
  let t := StandIn.reply_with PNone in
  (run t (MygPodderClient.update_subscriptions (L := StandIn.rejecting_locator)
            (PStr "phone") (PList [PInt 1]) PNone) = Raise x
   ∧ requests t (MygPodderClient.update_subscriptions
                   (L := StandIn.rejecting_locator) (PStr "phone")
                   (PList [PInt 1]) PNone) = [])
  ∧ (run t (MygPodderClient.pull_subscriptions (L := StandIn.rejecting_locator)
              (PStr "phone") PNone) = Raise x
     ∧ requests t (MygPodderClient.pull_subscriptions
                     (L := StandIn.rejecting_locator) (PStr "phone") PNone) = [])
  ∧ (run t (MygPodderClient.upload_episode_actions
              (L := StandIn.rejecting_locator) []) = Raise x
     ∧ requests t (MygPodderClient.upload_episode_actions
                     (L := StandIn.rejecting_locator) []) = [])
  ∧ (run t (MygPodderClient.download_episode_actions (U := StandIn.util)
              (L := StandIn.rejecting_locator) PNone PNone PNone) = Raise x
     ∧ requests t (MygPodderClient.download_episode_actions (U := StandIn.util)
                     (L := StandIn.rejecting_locator) PNone PNone PNone) = [])
  ∧ (run t (MygPodderClient.update_device_settings
              (L := StandIn.rejecting_locator) (PStr "phone") PNone PNone)
     = Raise x
     ∧ requests t (MygPodderClient.update_device_settings
                     (L := StandIn.rejecting_locator) (PStr "phone") PNone PNone)
       = [])
  ∧ (run t (MygPodderClient.get_devices (L := StandIn.rejecting_locator))
     = Raise x
     ∧ requests t (MygPodderClient.get_devices (L := StandIn.rejecting_locator))
       = []).
Proof.
  intros x t.
  destruct (locator_failure_sends_nothing (U := StandIn.util)
              (L := StandIn.rejecting_locator) t x)
    as (H1 & H2 & H3 & H4 & H5 & H6).
  split_and!.
  - apply (H1 (PStr "phone") (PList [PInt 1]) PNone eq_refl).
  - apply (H1 (PStr "phone") (PList [PInt 1]) PNone eq_refl).
  - apply (H2 (PStr "phone") PNone eq_refl).
  - apply (H2 (PStr "phone") PNone eq_refl).
  - apply (H3 [] eq_refl).
  - apply (H3 [] eq_refl).
  - apply (H4 PNone PNone PNone eq_refl).
  - apply (H4 PNone PNone PNone eq_refl).
  - apply (H5 (PStr "phone") PNone PNone eq_refl).
  - apply (H5 (PStr "phone") PNone PNone eq_refl).
  - apply (H6 eq_refl).
  - apply (H6 eq_refl).
Defined.

(** No method handles an exception of the transport: once the locator has
    given the URI (and, for [update_subscriptions], the two lists are lists
    of strings), an exception raised by the request, of whatever class, is
    the exception the method raises. *)
Theorem transport_failure_propagates {U : Util} {L : Locator}
    (transport : request → result pyval) (uri : string) (x : exn) :
  (∀ device_id (add_urls remove_urls : list string),
     add_remove_subscriptions_uri device_id = Ok uri →
     transport (POST uri (PDict (<["remove" := PList (PStr <$> remove_urls)]>
                                   (<["add" := PList (PStr <$> add_urls)]> ∅))))
     = Raise x →
     run transport
       (MygPodderClient.update_subscriptions device_id
          (PList (PStr <$> add_urls)) (PList (PStr <$> remove_urls))) = Raise x)
  ∧ (∀ device_id since,
       subscription_updates_uri device_id since = Ok uri →
       transport (GET uri) = Raise x →
       run transport (MygPodderClient.pull_subscriptions device_id since)
       = Raise x)
  ∧ (∀ actions,
       upload_episode_actions_uri = Ok uri →
       transport (POST uri (PList ((fun action =>
                                      PDict (EpisodeAction.to_dictionary action))
                                     <$> actions))) = Raise x →
       run transport (MygPodderClient.upload_episode_actions actions) = Raise x)
  ∧ (∀ since podcast device_id,
       download_episode_actions_uri since podcast device_id = Ok uri →
       transport (GET uri) = Raise x →
       run transport
         (MygPodderClient.download_episode_actions since podcast device_id)
       = Raise x)
  ∧ (∀ device_id caption type,
       device_settings_uri device_id = Ok uri →
       transport (PUT uri (PDict (MygPodderClient.device_settings caption type)))
       = Raise x →
       run transport
         (MygPodderClient.update_device_settings device_id caption type)
       = Raise x)
  ∧ (device_list_uri = Ok uri →
     transport (GET uri) = Raise x →
     run transport MygPodderClient.get_devices = Raise x).
Proof.
  split_and!.
  - intros device_id add_urls remove_urls Huri Hx.
    destruct (run_update_subscriptions device_id add_urls remove_urls uri
                transport Huri) as [_ Hrun].
    rewrite Hrun, Hx. reflexivity.
  - intros device_id since Huri Hx.
    unfold MygPodderClient.pull_subscriptions. rewrite Huri. cbn.
    by rewrite Hx.
  - intros actions Huri Hx.
    destruct (run_upload_episode_actions actions uri transport Huri)
      as [_ Hrun].
    rewrite Hrun, Hx. reflexivity.
  - intros since podcast device_id Huri Hx.
    unfold MygPodderClient.download_episode_actions. rewrite Huri. cbn.
    by rewrite Hx.
  - intros device_id caption type Huri Hx.
    unfold MygPodderClient.update_device_settings. rewrite Huri. cbn.
    by rewrite Hx.
  - intros Huri Hx. unfold MygPodderClient.get_devices. rewrite Huri. cbn.
    by rewrite Hx.
Qed.

Lemma transport_failure_propagates_witness :
  let x := OtherError "URLError" in
  run StandIn.unreachable
    (MygPodderClient.update_subscriptions (L := StandIn.locator) (PStr "phone")
       (PList [PStr "http://a"]) (PList [])) = Raise x
  ∧ run StandIn.unreachable
      (MygPodderClient.pull_subscriptions (L := StandIn.locator) (PStr "phone")
         PNone) = Raise x
  ∧ run StandIn.unreachable
      (MygPodderClient.upload_episode_actions (L := StandIn.locator) [])
    = Raise x
  ∧ run StandIn.unreachable
      (MygPodderClient.download_episode_actions (U := StandIn.util)
         (L := StandIn.locator) PNone PNone PNone) = Raise x
  ∧ run StandIn.unreachable
      (MygPodderClient.update_device_settings (L := StandIn.locator)
         (PStr "phone") PNone PNone) = Raise x
  ∧ run StandIn.unreachable (MygPodderClient.get_devices (L := StandIn.locator))
    = Raise x.
Proof.
  intros x.
  pose (failure uri :=
          transport_failure_propagates (U := StandIn.util)
            (L := StandIn.locator) StandIn.unreachable uri x).
  split_and!.
  - destruct (failure "/api/1/subscriptions/phone.json") as (H1 & _).
    apply (H1 (PStr "phone") ["http://a"] []); reflexivity.
  - destruct (failure "/api/1/subscriptions/phone.json") as (_ & H2 & _).
    apply (H2 (PStr "phone") PNone); reflexivity.
  - destruct (failure "/api/1/episodes.json") as (_ & _ & H3 & _).
    apply (H3 []); reflexivity.
  - destruct (failure "/api/1/episodes.json") as (_ & _ & _ & H4 & _).
    apply (H4 PNone PNone PNone); reflexivity.
  - destruct (failure "/api/1/devices/phone.json") as (_ & _ & _ & _ & H5 & _).
    apply (H5 (PStr "phone") PNone PNone); reflexivity.
  - destruct (failure "/api/1/devices.json") as (_ & _ & _ & _ & _ & H6).
    apply H6; reflexivity.
Defined.

(** The three reading methods send one request, a GET of the URI the locator
    gave, whatever the transport answers. *)
Theorem reading_methods_one_GET {U : Util} {L : Locator}
    (transport : request → result pyval) (uri : string) :
  (∀ device_id since,
     subscription_updates_uri device_id since = Ok uri →
     requests transport (MygPodderClient.pull_subscriptions device_id since)
     = [GET uri])
  ∧ (∀ since podcast device_id,
       download_episode_actions_uri since podcast device_id = Ok uri →
       requests transport
         (MygPodderClient.download_episode_actions since podcast device_id)
       = [GET uri])
  ∧ (device_list_uri = Ok uri →
     requests transport MygPodderClient.get_devices = [GET uri]).
Proof.
  split_and!.
  - intros device_id since Huri.
    unfold MygPodderClient.pull_subscriptions. rewrite Huri. cbn.
    destruct (transport _); reflexivity.
  - intros since podcast device_id Huri.
    unfold MygPodderClient.download_episode_actions. rewrite Huri. cbn.
    destruct (transport _); reflexivity.
  - intros Huri. unfold MygPodderClient.get_devices. rewrite Huri. cbn.
    destruct (transport _) as [reply|]; [| reflexivity].
    destruct (is_None reply); reflexivity.
Qed.

Lemma reading_methods_one_GET_witness :
  let t := StandIn.reply_with (PInt 5) in
  requests t (MygPodderClient.pull_subscriptions (L := StandIn.locator)
                (PStr "phone") PNone)
  = [GET "/api/1/subscriptions/phone.json"]
  ∧ requests t (MygPodderClient.download_episode_actions (U := StandIn.util)
                  (L := StandIn.locator) PNone PNone PNone)
    = [GET "/api/1/episodes.json"]
  ∧ requests t (MygPodderClient.get_devices (L := StandIn.locator))
    = [GET "/api/1/devices.json"].
Proof.
  intros t. split_and!.
  - destruct (reading_methods_one_GET (U := StandIn.util) (L := StandIn.locator)
                t "/api/1/subscriptions/phone.json") as (H1 & _).
    apply (H1 (PStr "phone") PNone). reflexivity.
  - destruct (reading_methods_one_GET (U := StandIn.util) (L := StandIn.locator)
                t "/api/1/episodes.json") as (_ & H2 & _).
    apply (H2 PNone PNone PNone). reflexivity.
  - destruct (reading_methods_one_GET (U := StandIn.util) (L := StandIn.locator)
                t "/api/1/devices.json") as (_ & _ & H3).
    apply H3. reflexivity.
Defined.
